(** * Gemini MCP server (stdio transport): dispatcher and session store

    A shallow embedding of the class [GeminiMCPServer] (the stdio server,
    in src/src/types/index.ts after the shared protocol types) together
    with the properties of its request routing, error mapping and chat
    session handling.

    Conventions of the embedding.
    - A parsed JSON-RPC message, its [params] and every tool argument is a
      [JSValue]: the values [JSON.parse] can produce, plus [undefined] for
      an absent property.
    - Numbers are integers ([Z]), printed in decimal.  The only fractional
      literal of the program, the default temperature 0.7, is kept symbolic
      in [GenerationConfig].
    - Strings are byte strings; [toLowerCase]/[toUpperCase] are modelled on
      the ASCII letters.
    - Table look-ups ([styleInstructions], [levelInstructions], [mimeTypes])
      consult the literal's own keys only (keys inherited from
      [Object.prototype] are not modelled).
    - The Gemini SDK, the file system and [JSON.parse]/[JSON.stringify] are
      external: they are the oracles of an environment [Env].  Every call
      to the SDK or to the file system is recorded in an effect log, and
      the oracle receives the log of the calls made before, so that two
      calls with the same arguments may answer differently.
    - [await] is sequential: one request is handled to completion before the
      next one starts. *)

From Stdlib Require Import ZArith String Ascii List.
From stdpp Require Import base option list strings pretty countable gmap.

Local Open Scope string_scope.
Local Open Scope Z_scope.

(** ** JSON values and the JavaScript coercions used by the server *)

Module JS.

#[warnings="-register-all"]
Inductive JSValue : Type :=
| JUndefined
| JNull
| JBool (b : bool)
| JNum (z : Z)
| JString (s : string)
| JArray (elems : list JSValue)
| JObject (fields : list (string * JSValue)).

(** [ToBoolean]: what [if (v)], [!v], [v ? a : b] and [v || d] test. *)
Definition truthy (v : JSValue) : bool :=
  match v with
  | JUndefined | JNull => false
  | JBool b => b
  | JNum z => negb (z =? 0)
  | JString s => negb (String.eqb s "")
  | JArray _ | JObject _ => true
  end.

(** [a || b]. *)
Definition js_or (a b : JSValue) : JSValue := if truthy a then a else b.

(** Own-property look-up in an object literal: the first binding of [k]. *)
Fixpoint assoc (k : string) (fs : list (string * JSValue)) : JSValue :=
  match fs with
  | [] => JUndefined
  | (k', v) :: fs' => if String.eqb k k' then v else assoc k fs'
  end.

(** [v.k] (equivalently the destructuring [const { k } = v]) for the
    property names the server reads, on a value that is neither [null] nor
    [undefined]: primitives and arrays have none of these properties. *)
Definition getProp (v : JSValue) (k : string) : JSValue :=
  match v with
  | JObject fs => assoc k fs
  | _ => JUndefined
  end.

(** A destructuring default [const { k = d } = v]: the default replaces
    [undefined] only. *)
Definition withDefault (v d : JSValue) : JSValue :=
  match v with
  | JUndefined => d
  | _ => v
  end.

(** [Array.prototype.join]: [null] and [undefined] elements print as the
    empty string. *)
Section Join.

Variable elemStr : JSValue -> string.

Fixpoint joinWith (sep : string) (l : list JSValue) : string :=
  match l with
  | [] => ""
  | [x] => elemStr x
  | x :: rest => elemStr x +:+ sep +:+ joinWith sep rest
  end.

End Join.

(** [ToString], as performed by a template literal [`${v}`]. *)
Fixpoint toStr (v : JSValue) : string :=
  match v with
  | JUndefined => "undefined"
  | JNull => "null"
  | JBool true => "true"
  | JBool false => "false"
  | JNum z => pretty z
  | JString s => s
  | JArray l =>
      (fix go (l : list JSValue) : string :=
         match l with
         | [] => ""
         | x :: rest =>
             let sx := match x with
                       | JUndefined | JNull => ""
                       | _ => toStr x
                       end in
             match rest with
             | [] => sx
             | _ :: _ => sx +:+ "," +:+ go rest
             end
         end) l
  | JObject _ => "[object Object]"
  end.

Definition elemToStr (x : JSValue) : string :=
  match x with
  | JUndefined | JNull => ""
  | _ => toStr x
  end.

(** Exceptions: a thrown [Error] (with its [message]) or any other thrown
    value. *)
Inductive JSExn : Type :=
| ErrorObj (message : string)
| NonError.

Inductive Outcome (A : Type) : Type :=
| Returns (a : A)
| Throws (e : JSExn).
Arguments Returns {A} a.
Arguments Throws {A} e.

Definition typeError (what : string) : JSExn := ErrorObj what.

(** ASCII case mapping. *)
Definition lower_ascii (c : ascii) : ascii :=
  let n := nat_of_ascii c in
  if (Nat.leb 65 n && Nat.leb n 90)%bool then ascii_of_nat (n + 32) else c.

Definition upper_ascii (c : ascii) : ascii :=
  let n := nat_of_ascii c in
  if (Nat.leb 97 n && Nat.leb n 122)%bool then ascii_of_nat (n - 32) else c.

Fixpoint map_string (f : ascii -> ascii) (s : string) : string :=
  match s with
  | EmptyString => EmptyString
  | String c s' => String (f c) (map_string f s')
  end.

Definition toLowerCase : string -> string := map_string lower_ascii.
Definition toUpperCase : string -> string := map_string upper_ascii.

(** [s.startsWith(p)]. *)
Definition startsWith (p s : string) : bool := String.prefix p s.

(** [s.split('.').pop()]: the part of [s] after its last dot, or [s] itself
    when it has none. *)
Fixpoint lastSegment (acc : string) (s : string) : string :=
  match s with
  | EmptyString => acc
  | String c s' =>
      if Ascii.eqb c "."%char then lastSegment s' s' else lastSegment acc s'
  end.

Definition afterLastDot (s : string) : string := lastSegment s s.

End JS.

(** ** Protocol data, SDK requests and the server state *)

Import JS.

(** JSON-RPC error codes used by the server. *)
Definition ParseError : Z := -32700.
Definition MethodNotFound : Z := -32601.
Definition InvalidParams : Z := -32602.
Definition InternalError : Z := -32603.

(** One property of a tool's [inputSchema]: its name and type, and the
    [minItems]/[maxItems] bounds of an array property.  Property
    descriptions, defaults and enumerations are documentation for the
    client and are left out. *)
Record PropertySchema : Type := mkProp {
  propName : string;
  propType : string;
  minItems : option nat;
  maxItems : option nat
}.

Record ToolDescriptor : Type := mkTool {
  toolName : string;
  toolDescription : string;
  properties : list PropertySchema;
  required : list string;
  oneOf : list (list string)
}.

Inductive ResultValue : Type :=
| InitializeResult (protocolVersion serverName serverVersion : string)
                   (capabilities : list string)
| ToolsListResult (tools : list ToolDescriptor)
| ContentResult (text : string).

Record RpcError : Type := mkError { code : Z; message : string }.

Inductive Body : Type :=
| BResult (r : ResultValue)
| BError (e : RpcError).

Record MCPResponse : Type := mkResponse { id : JSValue; body : Body }.

(** Requests to the Gemini SDK. *)
Inductive Role : Type := User | Model.

Inductive Part : Type :=
| PText (text : JSValue)
| PInline (data : JSValue) (mimeType : string)
| PUndefined.

Record Content : Type := mkContent { role : Role; parts : list Part }.

Inductive Temperature : Type :=
| DefaultTemperature            (* the literal 0.7 *)
| GivenTemperature (v : JSValue).

Record GenerationConfig : Type := mkConfig {
  temperature : Temperature;
  maxOutputTokens : JSValue
}.

Inductive ModelHandle : Type := TextModel | VisionModel.

Record GenRequest : Type := mkGen {
  contents : list Content;
  generationConfig : option GenerationConfig
}.

(** The calls that leave the process. *)
Inductive Effect : Type :=
| EGenerate (m : ModelHandle) (req : GenRequest)      (* model.generateContent *)
| ESend (history : list Content) (message : JSValue)  (* chat.sendMessage *)
| ERead (path : JSValue).                             (* fs.readFile *)

(** Keys of the [chatSessions] map.  A [Map] compares primitive keys by
    value; an array or object key is compared by identity, and since every
    request is parsed afresh such a key is never found again: [mapKey]
    gives [None] for it. *)
Inductive MapKey : Type :=
| KNull
| KBool (b : bool)
| KNum (z : Z)
| KStr (s : string).

#[global] Instance MapKey_eq_dec : EqDecision MapKey.
Proof. solve_decision. Defined.

#[global] Instance MapKey_countable : Countable MapKey.
Proof.
  refine (inj_countable'
            (fun k => match k with
                      | KNull => inl tt
                      | KBool b => inr (inl b)
                      | KNum z => inr (inr (inl z))
                      | KStr s => inr (inr (inr s))
                      end)
            (fun x => match x with
                      | inl _ => KNull
                      | inr (inl b) => KBool b
                      | inr (inr (inl z)) => KNum z
                      | inr (inr (inr s)) => KStr s
                      end) _).
  by intros [].
Defined.

Definition mapKey (v : JSValue) : option MapKey :=
  match v with
  | JNull => Some KNull
  | JBool b => Some (KBool b)
  | JNum z => Some (KNum z)
  | JString s => Some (KStr s)
  | JUndefined | JArray _ | JObject _ => None
  end.

(** [chatSessions] holds, for each key, the history of the SDK chat object
    stored under it; [effects] is the log of external calls, oldest
    first. *)
Record ServerState : Type := mkState {
  chatSessions : gmap MapKey (list Content);
  effects : list Effect
}.

Definition initialState : ServerState :=
  {| chatSessions := ∅; effects := [] |}.

(** What lies outside the program. *)
Record Env : Type := mkEnv {
  (** the answer of the SDK or of the file system to a call, given the calls
      made before it: the generated text ([result.response.text()]), or the
      base64 rendering of the file read *)
  oracle : list Effect -> Effect -> Outcome string;
  (** [JSON.parse]: [None] when it throws *)
  JSON_parse : string -> option JSValue;
  (** [JSON.stringify(v, null, 2)] *)
  JSON_stringify : JSValue -> string;
  (** how [ToNumber v] compares with an integer, for a string, an array or
      an object [v]; [None] when [ToNumber v] is [NaN] *)
  compareNumber : JSValue -> Z -> option comparison
}.

(** ** The monad of handlers: state, exceptions and logged effects *)

Definition M (A : Type) : Type := ServerState -> Outcome A * ServerState.

Definition ret {A : Type} (a : A) : M A := fun st => (Returns a, st).

Definition throw {A : Type} (e : JSExn) : M A := fun st => (Throws e, st).

Definition bind {A B : Type} (m : M A) (k : A -> M B) : M B :=
  fun st =>
    match m st with
    | (Returns a, st') => k a st'
    | (Throws e, st') => (Throws e, st')
    end.

(** [try { m } catch (error) { h error }] *)
Definition tryCatch {A : Type} (m : M A) (h : JSExn -> M A) : M A :=
  fun st =>
    match m st with
    | (Returns a, st') => (Returns a, st')
    | (Throws e, st') => h e st'
    end.

Definition gets {A : Type} (f : ServerState -> A) : M A :=
  fun st => (Returns (f st), st).

Definition setSessions (f : gmap MapKey (list Content) -> gmap MapKey (list Content))
  : M unit :=
  fun st => (Returns tt, {| chatSessions := f (chatSessions st);
                            effects := effects st |}).

Notation "'let*' x ':=' m 'in' k" := (bind m (fun x => k))
  (at level 10, x name, m at level 100, k at level 200).

(** ** String constants *)

Definition nl : string := String "010"%char "".
Definition dquote : string := String "034"%char "".
Definition fence : string := "```".

(** [Array.prototype.join(sep)] on a JSON array. *)
Definition join (sep : string) (l : list JSValue) : string :=
  joinWith elemToStr sep l.

(** The [length] property of a value other than [null]/[undefined]. *)
Definition lengthOf (v : JSValue) : JSValue :=
  match v with
  | JArray l => JNum (Z.of_nat (length l))
  | JString s => JNum (Z.of_nat (String.length s))
  | JObject fs => assoc "length" fs
  | _ => JUndefined
  end.

(** [{ ...args, k: v }]: the own enumerable properties of [args] (of an
    object its fields, of an array or a string its indices), with [k]
    overriding. *)
Fixpoint indexed (i : nat) (l : list JSValue) : list (string * JSValue) :=
  match l with
  | [] => []
  | x :: r => (pretty i, x) :: indexed (S i) r
  end.

Fixpoint chars (s : string) : list JSValue :=
  match s with
  | EmptyString => []
  | String c s' => JString (String c "") :: chars s'
  end.

Definition ownProps (v : JSValue) : list (string * JSValue) :=
  match v with
  | JObject fs => fs
  | JArray l => indexed 0 l
  | JString s => indexed 0 (chars s)
  | _ => []
  end.

Definition spreadWith (args : JSValue) (k : string) (v : JSValue) : JSValue :=
  JObject ((k, v) :: ownProps args).

(** ** Responses *)

Definition errorResponse (id : JSValue) (code : Z) (message : string)
  : MCPResponse :=
  {| id := id; body := BError {| code := code; message := message |} |}.

Definition textResponse (id : JSValue) (text : string) : MCPResponse :=
  {| id := id; body := BResult (ContentResult text) |}.

Definition userText (t : JSValue) : Content :=
  {| role := User; parts := [PText t] |}.

Definition modelText (t : string) : Content :=
  {| role := Model; parts := [PText (JString t)] |}.

(** The [mimeTypes] table of [getMimeType]. *)
Definition mimeTypes (ext : string) : JSValue :=
  if String.eqb ext "jpg" then JString "image/jpeg"
  else if String.eqb ext "jpeg" then JString "image/jpeg"
  else if String.eqb ext "png" then JString "image/png"
  else if String.eqb ext "gif" then JString "image/gif"
  else if String.eqb ext "webp" then JString "image/webp"
  else JUndefined.

(** The [styleInstructions] table of [summarizeText]. *)
Definition styleInstructions (style : string) : JSValue :=
  if String.eqb style "brief"
  then JString "Provide a brief summary in 2-3 sentences"
  else if String.eqb style "detailed"
  then JString "Provide a detailed summary covering all main points"
  else if String.eqb style "bullet-points"
  then JString "Provide a summary using bullet points"
  else if String.eqb style "executive"
  then JString "Provide an executive summary suitable for business readers"
  else JUndefined.

(** The [levelInstructions] table of [moderateText]. *)
Definition levelInstructions (level : string) : JSValue :=
  if String.eqb level "strict"
  then JString "Remove or modify any potentially inappropriate content"
  else if String.eqb level "moderate"
  then JString "Clean up obviously inappropriate content while preserving meaning"
  else if String.eqb level "lenient"
  then JString "Only remove explicit inappropriate content"
  else JUndefined.

(** The history [startChat] is given for a new session. *)
Definition initialHistory (systemPrompt : JSValue) : list Content :=
  if truthy systemPrompt
  then [ userText (JString ("System: " +:+ toStr systemPrompt));
         modelText "Understood. I will follow these instructions." ]
  else [].

(** The caller turn the SDK records for [sendMessage(message)]. *)
Definition formatNewContent (message : JSValue) : Content := userText message.

Definition summaryRequest : string :=
  "Please provide a concise summary of our conversation so far.".

Definition ocrInstruction : string :=
  "Extract all text from this image. Provide only the extracted text without any additional commentary.".

(** ** The server *)

Section Server.

Variable env : Env.

(** An external call: logged, and answered by the environment. *)
Definition perform (e : Effect) : M string :=
  fun st => (oracle env (effects st) e,
             {| chatSessions := chatSessions st;
                effects := (effects st ++ [e])%list |}).

(** How [ToNumber v] compares with the integer [n]. *)
Definition numCompare (v : JSValue) (n : Z) : option comparison :=
  match v with
  | JUndefined => None
  | JNull => Some (0 ?= n)
  | JBool b => Some ((if b then 1 else 0) ?= n)
  | JNum z => Some (z ?= n)
  | _ => compareNumber env v n
  end.

(** [v < n] and [v > n]. *)
Definition js_lt (v : JSValue) (n : Z) : bool :=
  match numCompare v n with Some Lt => true | _ => false end.

Definition js_gt (v : JSValue) (n : Z) : bool :=
  match numCompare v n with Some Gt => true | _ => false end.

(** [getMimeType] *)
Definition getMimeType (filePath : JSValue) : M string :=
  match filePath with
  | JString p =>
      let ext := afterLastDot (toLowerCase p) in
      match js_or (mimeTypes ext) (JString "image/jpeg") with
      | JString m => ret m
      | _ => ret "image/jpeg"
      end
  | _ => throw (typeError "filePath.toLowerCase is not a function")
  end.

(** [generateText] *)
Definition generateText (id : JSValue) (args : JSValue) : M MCPResponse :=
  let prompt := getProp args "prompt" in
  let temperature :=
    match getProp args "temperature" with
    | JUndefined => DefaultTemperature
    | v => GivenTemperature v
    end in
  let maxTokens := withDefault (getProp args "maxTokens") (JNum 1000) in
  if negb (truthy prompt)
  then ret (errorResponse id (-32602) "Missing prompt parameter")
  else
    let* text :=
      perform (EGenerate TextModel
                 {| contents := [userText prompt];
                    generationConfig :=
                      Some {| temperature := temperature;
                              maxOutputTokens := maxTokens |} |}) in
    ret (textResponse id text).

(** The tail of [analyzeImage], once [imageData] is known. *)
Definition describeImage (id : JSValue) (prompt : JSValue) (imageData : Part)
  : M MCPResponse :=
  let* text :=
    perform (EGenerate VisionModel
               {| contents := [ {| role := User;
                                   parts := [PText prompt; imageData] |} ];
                  generationConfig := None |}) in
  ret (textResponse id text).

(** [analyzeImage] *)
Definition analyzeImage (id : JSValue) (args : JSValue) : M MCPResponse :=
  let imagePath := getProp args "imagePath" in
  let imageBase64 := getProp args "imageBase64" in
  let prompt :=
    withDefault (getProp args "prompt") (JString "Describe this image in detail") in
  if truthy imagePath then
    let* imageBuffer := perform (ERead imagePath) in
    let* mime := getMimeType imagePath in
    describeImage id prompt (PInline (JString imageBuffer) mime)
  else if truthy imageBase64 then
    describeImage id prompt (PInline imageBase64 "image/jpeg")
  else ret (errorResponse id (-32602) "Missing image data").

(** [extractTextFromImage] *)
Definition extractTextFromImage (id : JSValue) (args : JSValue)
  : M MCPResponse :=
  let modifiedArgs := spreadWith args "prompt" (JString ocrInstruction) in
  analyzeImage id modifiedArgs.

(** The callback [compareImages] maps over [images]. *)
Definition imagePart (img : JSValue) : M Part :=
  match img with
  | JUndefined =>
      throw (typeError "Cannot read properties of undefined (reading 'path')")
  | JNull =>
      throw (typeError "Cannot read properties of null (reading 'path')")
  | _ =>
      let path := getProp img "path" in
      let base64 := getProp img "base64" in
      if truthy path then
        let* imageBuffer := perform (ERead path) in
        let* mime := getMimeType path in
        ret (PInline (JString imageBuffer) mime)
      else if truthy base64 then ret (PInline base64 "image/jpeg")
      else ret PUndefined
  end.

(** [Promise.all(images.map(f))]: every callback is started, in order, so
    every read is issued; the result is the list of parts, or the failure
    of the first element that failed. *)
Fixpoint promiseAllMap (f : JSValue -> M Part) (l : list JSValue)
  : M (list Part) :=
  match l with
  | [] => ret []
  | x :: rest =>
      fun st =>
        match f x st with
        | (Returns p, st1) =>
            match promiseAllMap f rest st1 with
            | (Returns ps, st2) => (Returns (p :: ps), st2)
            | (Throws e, st2) => (Throws e, st2)
            end
        | (Throws e, st1) => (Throws e, snd (promiseAllMap f rest st1))
        end
  end.

(** [compareImages] *)
Definition compareImages (id : JSValue) (args : JSValue) : M MCPResponse :=
  let images := getProp args "images" in
  let prompt :=
    withDefault (getProp args "prompt")
      (JString "Compare these images and describe their similarities and differences") in
  if (negb (truthy images) || js_lt (lengthOf images) 2)%bool
  then ret (errorResponse id (-32602) "At least 2 images required")
  else
    match images with
    | JArray imgs =>
        let* imageParts := promiseAllMap imagePart imgs in
        let* text :=
          perform (EGenerate VisionModel
                     {| contents := [ {| role := User;
                                         parts := PText prompt :: imageParts |} ];
                        generationConfig := None |}) in
        ret (textResponse id text)
    | _ => throw (typeError "images.map is not a function")
    end.

(** The handlers that only build a prompt call [generateText] with the
    argument object [{ prompt: fullPrompt }]. *)
Definition promptArgs (fullPrompt : string) : JSValue :=
  JObject [("prompt", JString fullPrompt)].

(** [generateCode] *)
Definition generateCode (id : JSValue) (args : JSValue) : M MCPResponse :=
  let prompt := getProp args "prompt" in
  let language := withDefault (getProp args "language") (JString "python") in
  let framework := getProp args "framework" in
  let fullPrompt :=
    "Generate " +:+ toStr language +:+ " code"
    +:+ (if truthy framework then " using " +:+ toStr framework else "")
    +:+ " for the following requirement:" +:+ nl +:+ nl +:+ toStr prompt
    +:+ nl +:+ nl
    +:+ "Provide only the code with appropriate comments. Use best practices and proper error handling." in
  generateText id (promptArgs fullPrompt).

(** [explainCode] *)
Definition explainCode (id : JSValue) (args : JSValue) : M MCPResponse :=
  let code := getProp args "code" in
  let language := getProp args "language" in
  let fullPrompt :=
    "Explain the following"
    +:+ (if truthy language then " " +:+ toStr language else "")
    +:+ " code in detail:" +:+ nl +:+ nl
    +:+ fence +:+ toStr (js_or language (JString "")) +:+ nl
    +:+ toStr code +:+ nl +:+ fence +:+ nl +:+ nl
    +:+ "Provide a comprehensive explanation including what it does, how it works, and any important considerations." in
  generateText id (promptArgs fullPrompt).

(** The [goalsList] of [refactorCode]. *)
Definition goalsListOf (goals : JSValue) : M string :=
  match goals with
  | JNull =>
      throw (typeError "Cannot read properties of null (reading 'length')")
  | _ =>
      if js_gt (lengthOf goals) 0 then
        match goals with
        | JArray l => ret (nl +:+ "Refactoring goals: " +:+ join ", " l)
        | _ => throw (typeError "goals.join is not a function")
        end
      else ret ""
  end.

(** [refactorCode] *)
Definition refactorCode (id : JSValue) (args : JSValue) : M MCPResponse :=
  let code := getProp args "code" in
  let language := getProp args "language" in
  let goals := withDefault (getProp args "goals") (JArray []) in
  let* goalsList := goalsListOf goals in
  let fullPrompt :=
    "Refactor the following"
    +:+ (if truthy language then " " +:+ toStr language else "")
    +:+ " code" +:+ goalsList +:+ ":" +:+ nl +:+ nl
    +:+ fence +:+ toStr (js_or language (JString "")) +:+ nl
    +:+ toStr code +:+ nl +:+ fence +:+ nl +:+ nl
    +:+ "Provide the refactored code with explanations of the changes made." in
  generateText id (promptArgs fullPrompt).

(** [convertCode] *)
Definition convertCode (id : JSValue) (args : JSValue) : M MCPResponse :=
  let code := getProp args "code" in
  let sourceLanguage := getProp args "sourceLanguage" in
  let targetLanguage := getProp args "targetLanguage" in
  let fullPrompt :=
    "Convert the following code from "
    +:+ toStr (js_or sourceLanguage (JString "the source language"))
    +:+ " to " +:+ toStr targetLanguage +:+ ":" +:+ nl +:+ nl
    +:+ fence +:+ toStr (js_or sourceLanguage (JString "")) +:+ nl
    +:+ toStr code +:+ nl +:+ fence +:+ nl +:+ nl
    +:+ "Provide the converted code maintaining the same functionality and using idiomatic "
    +:+ toStr targetLanguage +:+ " patterns." in
  generateText id (promptArgs fullPrompt).

(** [chat.sendMessage(message)] on the session stored under [key] (or on a
    session that no key reaches), whose history is [history]: the SDK sends
    the history followed by the message and, when the backend answers,
    records the caller turn and the generator turn. *)
Definition sendMessage (key : option MapKey) (history : list Content)
    (message : JSValue) : M string :=
  let* text := perform (ESend history message) in
  let* _ :=
    setSessions (fun m =>
      match key with
      | Some k => <[k := (history ++ [formatNewContent message; modelText text])%list]> m
      | None => m
      end) in
  ret text.

(** [this.chatSessions.get(sessionId)] *)
Definition getSession (sessionId : JSValue) : M (option (list Content)) :=
  gets (fun st => mapKey sessionId ≫= fun k => chatSessions st !! k).

(** [chat] *)
Definition chat (id : JSValue) (args : JSValue) : M MCPResponse :=
  let message := getProp args "message" in
  let sessionId := withDefault (getProp args "sessionId") (JString "default") in
  let systemPrompt := getProp args "systemPrompt" in
  let* existing := getSession sessionId in
  let* history :=
    match existing with
    | Some h => ret h
    | None =>
        let h0 := initialHistory systemPrompt in
        let* _ :=
          setSessions (fun m =>
            match mapKey sessionId with
            | Some k => <[k := h0]> m
            | None => m
            end) in
        ret h0
    end in
  let* text := sendMessage (mapKey sessionId) history message in
  ret (textResponse id text).

(** [clearChatHistory] *)
Definition clearChatHistory (id : JSValue) (args : JSValue) : M MCPResponse :=
  let sessionId := withDefault (getProp args "sessionId") (JString "default") in
  let* _ :=
    setSessions (fun m =>
      match mapKey sessionId with
      | Some k => delete k m
      | None => m
      end) in
  ret (textResponse id ("Chat history cleared for session: " +:+ toStr sessionId)).

(** [summarizeConversation] *)
Definition summarizeConversation (id : JSValue) (args : JSValue)
  : M MCPResponse :=
  let sessionId := withDefault (getProp args "sessionId") (JString "default") in
  let* existing := getSession sessionId in
  match existing with
  | None =>
      ret (errorResponse id (-32602) "No chat history found for this session")
  | Some history =>
      let* text :=
        sendMessage (mapKey sessionId) history (JString summaryRequest) in
      ret (textResponse id text)
  end.

(** [translateText] *)
Definition translateText (id : JSValue) (args : JSValue) : M MCPResponse :=
  let text := getProp args "text" in
  let targetLanguage := getProp args "targetLanguage" in
  let sourceLanguage := getProp args "sourceLanguage" in
  let fullPrompt :=
    "Translate the following text"
    +:+ (if truthy sourceLanguage then " from " +:+ toStr sourceLanguage else "")
    +:+ " to " +:+ toStr targetLanguage
    +:+ ". Provide only the translation without any additional explanation:"
    +:+ nl +:+ nl +:+ toStr text in
  generateText id (promptArgs fullPrompt).

(** [summarizeText] *)
Definition summarizeText (id : JSValue) (args : JSValue) : M MCPResponse :=
  let text := getProp args "text" in
  let style := withDefault (getProp args "style") (JString "brief") in
  let maxLength := getProp args "maxLength" in
  let lengthInstruction :=
    if truthy maxLength
    then " in no more than " +:+ toStr maxLength +:+ " words"
    else "" in
  let fullPrompt :=
    toStr (styleInstructions (toStr style)) +:+ lengthInstruction
    +:+ " of the following text:" +:+ nl +:+ nl +:+ toStr text in
  generateText id (promptArgs fullPrompt).

(** [rewriteText] *)
Definition rewriteText (id : JSValue) (args : JSValue) : M MCPResponse :=
  let text := getProp args "text" in
  let style := getProp args "style" in
  let targetAudience := getProp args "targetAudience" in
  let audienceInstruction :=
    if truthy targetAudience then " for " +:+ toStr targetAudience else "" in
  let fullPrompt :=
    "Rewrite the following text in a " +:+ toStr style +:+ " style"
    +:+ audienceInstruction +:+ ":" +:+ nl +:+ nl +:+ toStr text in
  generateText id (promptArgs fullPrompt).

(** [format.toUpperCase()] *)
Definition upperCaseOf (format : JSValue) : M string :=
  match format with
  | JString f => ret (toUpperCase f)
  | JNull =>
      throw (typeError "Cannot read properties of null (reading 'toUpperCase')")
  | _ => throw (typeError "format.toUpperCase is not a function")
  end.

(** The fenced annotation put around text that is not JSON. *)
Definition fenced (text : string) : string :=
  fence +:+ "json" +:+ nl +:+ text +:+ nl +:+ fence.

(** The validation pass of [generateStructuredData] on the response of
    [generateText]. *)
Definition validateJson (format : JSValue) (result : MCPResponse)
  : MCPResponse :=
  match format, body result with
  | JString f, BResult (ContentResult text) =>
      if String.eqb f "json" then
        match JSON_parse env text with
        | Some _ => result
        | None => {| id := id result; body := BResult (ContentResult (fenced text)) |}
        end
      else result
  | _, _ => result
  end.

(** [generateStructuredData] *)
Definition generateStructuredData (id : JSValue) (args : JSValue)
  : M MCPResponse :=
  let prompt := getProp args "prompt" in
  let format := withDefault (getProp args "format") (JString "json") in
  let schema := getProp args "schema" in
  let schemaInstruction :=
    if truthy schema
    then nl +:+ nl +:+ "Follow this schema:" +:+ nl +:+ JSON_stringify env schema
    else "" in
  let* upper := upperCaseOf format in
  let fullPrompt :=
    "Generate " +:+ upper +:+ " data for: " +:+ toStr prompt
    +:+ schemaInstruction +:+ nl +:+ nl
    +:+ "Provide only the " +:+ toStr format
    +:+ " data without any markdown code blocks or additional explanation." in
  let* result := generateText id (promptArgs fullPrompt) in
  ret (validateJson format result).

(** [categories.join(', ')] *)
Definition joinCategories (categories : JSValue) : M string :=
  match categories with
  | JArray l => ret (join ", " l)
  | JNull =>
      throw (typeError "Cannot read properties of null (reading 'join')")
  | _ => throw (typeError "categories.join is not a function")
  end.

(** [checkContentSafety] *)
Definition checkContentSafety (id : JSValue) (args : JSValue)
  : M MCPResponse :=
  let content := getProp args "content" in
  let categories :=
    withDefault (getProp args "categories")
      (JArray [JString "harassment"; JString "hate"; JString "sexual";
               JString "dangerous"]) in
  let* joined := joinCategories categories in
  let fullPrompt :=
    "Analyze the following content for safety issues in these categories: "
    +:+ joined +:+ ". " +:+ nl
    +:+ "    " +:+ nl
    +:+ "Content: " +:+ dquote +:+ toStr content +:+ dquote +:+ nl
    +:+ nl
    +:+ "Provide a safety assessment with:" +:+ nl
    +:+ "1. Overall safety rating (safe/caution/unsafe)" +:+ nl
    +:+ "2. Specific concerns for each category" +:+ nl
    +:+ "3. Recommendations if any issues are found" +:+ nl
    +:+ nl
    +:+ "Format as JSON." in
  generateText id (promptArgs fullPrompt).

(** [moderateText] *)
Definition moderateText (id : JSValue) (args : JSValue) : M MCPResponse :=
  let text := getProp args "text" in
  let level := withDefault (getProp args "level") (JString "moderate") in
  let fullPrompt :=
    toStr (levelInstructions (toStr level))
    +:+ " in the following text. Return the cleaned version:"
    +:+ nl +:+ nl +:+ toStr text in
  generateText id (promptArgs fullPrompt).

(** The cases of the [switch (toolName)] of [handleToolsCall], in order. *)
Definition Handler : Type := JSValue -> JSValue -> M MCPResponse.

Definition toolCases : list (string * Handler) :=
  [ ("generate_text", generateText);
    ("analyze_image", analyzeImage);
    ("extract_text_from_image", extractTextFromImage);
    ("compare_images", compareImages);
    ("generate_code", generateCode);
    ("explain_code", explainCode);
    ("refactor_code", refactorCode);
    ("convert_code", convertCode);
    ("chat", chat);
    ("clear_chat_history", clearChatHistory);
    ("summarize_conversation", summarizeConversation);
    ("translate_text", translateText);
    ("summarize_text", summarizeText);
    ("rewrite_text", rewriteText);
    ("generate_structured_data", generateStructuredData);
    ("check_content_safety", checkContentSafety);
    ("moderate_text", moderateText) ].

Fixpoint lookupCase (cases : list (string * Handler)) (name : string)
  : option Handler :=
  match cases with
  | [] => None
  | (n, h) :: rest => if String.eqb name n then Some h else lookupCase rest name
  end.

(** The [case] a tool name selects; [switch] compares with [===], so only a
    string selects one. *)
Definition resolve (toolName : JSValue) : option Handler :=
  match toolName with
  | JString name => lookupCase toolCases name
  | _ => None
  end.

(** [request.params?.k] *)
Definition paramsProp (request : JSValue) (k : string) : JSValue :=
  match getProp request "params" with
  | JUndefined | JNull => JUndefined
  | params => getProp params k
  end.

(** The message the [catch] of [handleToolsCall] reports. *)
Definition caughtMessage (error : JSExn) : string :=
  "Error: " +:+ match error with
                | ErrorObj message => message
                | NonError => "Unknown error"
                end.

(** [handleToolsCall] *)
Definition handleToolsCall (request : JSValue) : M MCPResponse :=
  let toolName := paramsProp request "name" in
  let args := js_or (paramsProp request "arguments") (JObject []) in
  tryCatch
    (match resolve toolName with
     | Some handler => handler (getProp request "id") args
     | None =>
         ret (errorResponse (getProp request "id") (-32602)
                ("Unknown tool: " +:+ toStr toolName))
     end)
    (fun error =>
       ret (errorResponse (getProp request "id") (-32603) (caughtMessage error))).

(** [handleInitialize] *)
Definition handleInitialize (request : JSValue) : MCPResponse :=
  {| id := getProp request "id";
     body := BResult (InitializeResult "2024-11-05" "gemini-2.5-pro-mcp-server"
                        "2.5.0" ["tools"]) |}.

(** The catalog of [handleToolsList], in declaration order. *)
Definition prop (name type : string) : PropertySchema :=
  {| propName := name; propType := type; minItems := None; maxItems := None |}.

Definition toolDescriptors : list ToolDescriptor :=
  [ mkTool "generate_text" "Generate text using Google Gemini"
      [prop "prompt" "string"; prop "temperature" "number";
       prop "maxTokens" "number"]
      ["prompt"] [];
    mkTool "analyze_image" "Analyze an image and answer questions about it"
      [prop "imagePath" "string"; prop "imageBase64" "string";
       prop "prompt" "string"]
      [] [["imagePath"; "prompt"]; ["imageBase64"; "prompt"]];
    mkTool "extract_text_from_image" "Extract text (OCR) from an image"
      [prop "imagePath" "string"; prop "imageBase64" "string"]
      [] [["imagePath"]; ["imageBase64"]];
    mkTool "compare_images"
      "Compare multiple images and describe differences/similarities"
      [ {| propName := "images"; propType := "array";
           minItems := Some 2%nat; maxItems := Some 5%nat |};
        prop "prompt" "string" ]
      ["images"] [];
    mkTool "generate_code" "Generate code in a specific programming language"
      [prop "prompt" "string"; prop "language" "string";
       prop "framework" "string"]
      ["prompt"] [];
    mkTool "explain_code" "Analyze and explain code"
      [prop "code" "string"; prop "language" "string"]
      ["code"] [];
    mkTool "refactor_code" "Suggest improvements and refactor code"
      [prop "code" "string"; prop "language" "string"; prop "goals" "array"]
      ["code"] [];
    mkTool "convert_code" "Convert code from one language to another"
      [prop "code" "string"; prop "sourceLanguage" "string";
       prop "targetLanguage" "string"]
      ["code"; "targetLanguage"] [];
    mkTool "chat" "Have a conversation with context memory"
      [prop "message" "string"; prop "sessionId" "string";
       prop "systemPrompt" "string"]
      ["message"] [];
    mkTool "clear_chat_history" "Clear conversation history for a session"
      [prop "sessionId" "string"]
      [] [];
    mkTool "summarize_conversation" "Get a summary of the conversation"
      [prop "sessionId" "string"]
      [] [];
    mkTool "translate_text" "Translate text between languages"
      [prop "text" "string"; prop "targetLanguage" "string";
       prop "sourceLanguage" "string"]
      ["text"; "targetLanguage"] [];
    mkTool "summarize_text" "Create a summary of text"
      [prop "text" "string"; prop "style" "string"; prop "maxLength" "number"]
      ["text"] [];
    mkTool "rewrite_text" "Rewrite text in a different style or tone"
      [prop "text" "string"; prop "style" "string";
       prop "targetAudience" "string"]
      ["text"; "style"] [];
    mkTool "generate_structured_data"
      "Generate structured data (JSON, YAML, CSV, etc.)"
      [prop "prompt" "string"; prop "format" "string"; prop "schema" "object"]
      ["prompt"] [];
    mkTool "check_content_safety" "Analyze content for safety issues"
      [prop "content" "string"; prop "categories" "array"]
      ["content"] [];
    mkTool "moderate_text" "Filter and clean inappropriate content"
      [prop "text" "string"; prop "level" "string"]
      ["text"] [] ].

(** The registered tool names. *)
Definition toolNames : list string := map toolName toolDescriptors.

(** [handleToolsList] *)
Definition handleToolsList (request : JSValue) : MCPResponse :=
  {| id := getProp request "id";
     body := BResult (ToolsListResult toolDescriptors) |}.

Definition methodNotFound (request : JSValue) : MCPResponse :=
  {| id := getProp request "id";
     body := BError {| code := -32601; message := "Method not found" |} |}.

(** The [switch (request.method)] of [handleRequest]. *)
Definition routeMethod (request : JSValue) (method : string) : M MCPResponse :=
  if String.eqb method "initialize" then ret (handleInitialize request)
  else if String.eqb method "tools/list" then ret (handleToolsList request)
  else if String.eqb method "tools/call" then handleToolsCall request
  else if (String.eqb method "resources/list"
           || String.eqb method "prompts/list")%bool
  then ret (methodNotFound request)
  else ret (methodNotFound request).

(** [handleRequest]: [None] is the [null] returned for a notification. *)
Definition handleRequest (request : JSValue) : M (option MCPResponse) :=
  match request with
  | JNull =>
      throw (typeError "Cannot read properties of null (reading 'method')")
  | _ =>
      match getProp request "method" with
      | JString method =>
          if startsWith "notifications/" method then ret None
          else
            let* response := routeMethod request method in
            ret (Some response)
      | JUndefined =>
          throw (typeError
                   "Cannot read properties of undefined (reading 'startsWith')")
      | JNull =>
          throw (typeError
                   "Cannot read properties of null (reading 'startsWith')")
      | _ => throw (typeError "request.method.startsWith is not a function")
      end
  end.

Definition parseErrorResponse : MCPResponse :=
  {| id := JNum 0;
     body := BError {| code := -32700; message := "Parse error" |} |}.

(** The ['line'] listener of the constructor: the response written to
    standard output for one input line, if any. *)
Definition onLine (line : string) : M (option MCPResponse) :=
  tryCatch
    (match JSON_parse env line with
     | None => throw (ErrorObj "Unexpected token in JSON")
     | Some request => handleRequest request
     end)
    (fun _ => ret (Some parseErrorResponse)).

(** Handling a sequence of input lines, one after the other: the output
    lines. *)
Fixpoint onLines (lines : list string) : M (list MCPResponse) :=
  match lines with
  | [] => ret []
  | line :: rest =>
      let* out := onLine line in
      let* outs := onLines rest in
      ret (match out with Some r => r :: outs | None => outs end)
  end.

End Server.

(** ** Vocabulary of the statements *)

(** [needle] occurs in [hay]. *)
Definition contains (needle hay : string) : Prop :=
  exists pre post, hay = pre +:+ needle +:+ post.

(** The error code of a response, if it is an error envelope. *)
Definition errorCode (r : MCPResponse) : option Z :=
  match body r with
  | BError e => Some (code e)
  | BResult _ => None
  end.

Definition isSuccess (r : MCPResponse) : bool :=
  match body r with
  | BResult _ => true
  | BError _ => false
  end.

(** The request [generateText] sends for a prompt when the caller gives
    neither [temperature] nor [maxTokens]. *)
Definition textRequest (prompt : string) : GenRequest :=
  {| contents := [userText (JString prompt)];
     generationConfig :=
       Some {| temperature := DefaultTemperature;
               maxOutputTokens := JNum 1000 |} |}.

(** Submitting a prompt to the text model and wrapping the answer. *)
Definition submitPrompt (env : Env) (id : JSValue) (prompt : string)
  : M MCPResponse :=
  let* text := perform env (EGenerate TextModel (textRequest prompt)) in
  ret (textResponse id text).

(** The handlers that contain no check of their arguments: the ten that
    build a prompt for [generateText], and [chat]. *)
Definition uncheckedHandlers (env : Env) : list Handler :=
  [ generateCode env; explainCode env; refactorCode env; convertCode env;
    translateText env; summarizeText env; rewriteText env;
    generateStructuredData env; checkContentSafety env; moderateText env;
    chat env ].

(** A handler that never answers with an error envelope of its own: it
    returns a success envelope or throws. *)
Definition neverRejects (h : Handler) : Prop :=
  forall id args st,
    match h id args st with
    | (Returns r, _) => isSuccess r = true
    | (Throws _, _) => True
    end.


(** The state after one more logged effect. *)
Definition logged (st : ServerState) (e : Effect) : ServerState :=
  {| chatSessions := chatSessions st; effects := (effects st ++ [e])%list |}.

(** The state with the session of key [k] set to [h]. *)
Definition withSession (st : ServerState) (k : MapKey) (h : list Content)
  : ServerState :=
  {| chatSessions := <[k := h]> (chatSessions st); effects := effects st |}.

(** The session key of a call: [const { sessionId = 'default' } = args]. *)
Definition sessionIdOf (args : JSValue) : JSValue :=
  withDefault (getProp args "sessionId") (JString "default").

(** The history a [chat] call on key [k] continues: the stored one, or the
    initial history of a new session. *)
Definition historyFor (st : ServerState) (k : MapKey) (systemPrompt : JSValue)
  : list Content :=
  match chatSessions st !! k with
  | Some h => h
  | None => initialHistory systemPrompt
  end.

(** Strings made of decimal digits only. *)
Definition isDigit (c : ascii) : bool :=
  (Nat.leb 48 (nat_of_ascii c) && Nat.leb (nat_of_ascii c) 57)%bool.

Fixpoint allDigits (s : string) : bool :=
  match s with
  | EmptyString => true
  | String c s' => (isDigit c && allDigits s')%bool
  end.

(** *** Postconditions of computations *)


(** A computation that leaves the session map as it found it, whether it
    returns or throws. *)
Definition keepsSessions {A : Type} (m : M A) : Prop :=
  forall st, chatSessions (snd (m st)) = chatSessions st.

(** A computation that leaves the session of key [k] as it found it. *)
Definition keepsSession {A : Type} (k : MapKey) (m : M A) : Prop :=
  forall st, chatSessions (snd (m st)) !! k = chatSessions st !! k.

(** What one request may add to a history: nothing, or one caller turn
    followed by one generator turn. *)
Definition turnPair (extra : list Content) : Prop :=
  extra = []
  \/ exists message t, extra = [formatNewContent message; modelText t].

(** A computation that removes no session and only appends to the
    histories it finds, at most one pair of turns each. *)
Definition extendsHistories {A : Type} (m : M A) : Prop :=
  forall st k h,
    chatSessions st !! k = Some h ->
    exists extra,
      chatSessions (snd (m st)) !! k = Some (h ++ extra)%list
      /\ turnPair extra.

(** The arguments of a [tools/call] request, as [handleToolsCall] reads
    them, and the session key they name. *)
Definition requestArgs (request : JSValue) : JSValue :=
  js_or (paramsProp request "arguments") (JObject []).

Definition requestSessionKey (request : JSValue) : option MapKey :=
  mapKey (sessionIdOf (requestArgs request)).

(** The tools that work on the session map. *)
Definition sessionTools : list string :=
  ["chat"; "clear_chat_history"; "summarize_conversation"].

(** The methods [handleRequest] has a case of its own for. *)
Definition servedMethods : list string :=
  ["initialize"; "tools/list"; "tools/call"].

(** *** File names *)

(** Strings without a dot. *)
Fixpoint noDot (s : string) : bool :=
  match s with
  | EmptyString => true
  | String c s' => (negb (Ascii.eqb c "."%char) && noDot s')%bool
  end.

(** The keys of the [mimeTypes] literal, with their values. *)
Definition knownExtensions : list (string * string) :=
  [ ("jpg", "image/jpeg"); ("jpeg", "image/jpeg"); ("png", "image/png");
    ("gif", "image/gif"); ("webp", "image/webp") ].

(** The lower-case names every object inherits from [Object.prototype]:
    a look-up of one of them in an object literal does not give
    [undefined]. *)
Definition inheritedKeys : list string := ["constructor"; "__proto__"].

(** *** Images *)


(** The request [analyzeImage] and [compareImages] send to the vision
    model: one caller turn, the instruction first, then the images. *)
Definition visionRequest (prompt : JSValue) (images : list Part) : GenRequest :=
  {| contents := [ {| role := User; parts := PText prompt :: images |} ];
     generationConfig := None |}.

(** *** Prompt templates *)


(** *** Conversations *)




(** ** Concrete environments and requests *)

Module Scenario.

Definition request (id : JSValue) (method : string) (params : JSValue)
  : JSValue :=
  JObject [("jsonrpc", JString "2.0"); ("id", id);
           ("method", JString method); ("params", params)].

Definition toolCall (id : JSValue) (name : string) (args : JSValue) : JSValue :=
  request id "tools/call"
    (JObject [("name", JString name); ("arguments", args)]).

(** A [JSON.parse] that knows the lines of a table and rejects every other
    text. *)
Fixpoint parseWith (table : list (string * JSValue)) (line : string)
  : option JSValue :=
  match table with
  | [] => None
  | (l, v) :: rest => if String.eqb line l then Some v else parseWith rest line
  end.

Definition world (backend : list Effect -> Effect -> Outcome string)
    (table : list (string * JSValue)) : Env :=
  {| oracle := backend;
     JSON_parse := parseWith table;
     JSON_stringify := fun _ => "{}";
     compareNumber := fun _ _ => None |}.

(** A backend and file system that answer every call with [text]. *)
Definition answering (text : string) : Env :=
  world (fun _ _ => Returns text) [].

(** A backend and file system that fail every call with [new Error(msg)]. *)
Definition failing (msg : string) : Env :=
  world (fun _ _ => Throws (ErrorObj msg)) [].

(** A backend that answers the first [n] calls and fails afterwards. *)
Definition answeringFirst (n : nat) (text msg : string) : Env :=
  world (fun log _ => if (length log <? n)%nat then Returns text
                      else Throws (ErrorObj msg)) [].

Definition inlineImage (data : string) : JSValue :=
  JObject [("base64", JString data)].

Definition sixImages : JSValue :=
  JArray [inlineImage "aQ=="; inlineImage "ag=="; inlineImage "aw==";
          inlineImage "bA=="; inlineImage "bQ=="; inlineImage "bg=="].

(** Input lines, and a [JSON.parse] that knows them. *)
Definition quoted (s : string) : string := dquote +:+ s +:+ dquote.

Definition notificationLine (method : string) : string :=
  "{" +:+ quoted "jsonrpc" +:+ ":" +:+ quoted "2.0" +:+ ","
  +:+ quoted "method" +:+ ":" +:+ quoted method +:+ "}".

Definition notificationMessage (method : string) : JSValue :=
  JObject [("jsonrpc", JString "2.0"); ("method", JString method)].

Definition lineWorld : Env :=
  world (fun _ _ => Returns "ok")
    [ (notificationLine "notifications/initialized",
       notificationMessage "notifications/initialized");
      (notificationLine "exit", notificationMessage "exit") ].

(** Arguments of the chat tools for session "s1". *)
Definition chatArgs (message systemPrompt : string) : JSValue :=
  JObject [("message", JString message); ("sessionId", JString "s1");
           ("systemPrompt", JString systemPrompt)].

Definition sessionArgs (k : string) : JSValue :=
  JObject [("sessionId", JString k)].

(** The state after one answered [chat] call on session "s1". *)
Definition afterChat : ServerState :=
  snd (chat (answering "ok") (JNum 1) (chatArgs "hi" "be brief") initialState).

(** Arguments of [extract_text_from_image]: an inline image, with and
    without an instruction of the caller. *)
Definition ocrArgs : JSValue := JObject [("imageBase64", JString "aQ==")].

Definition ocrArgsWithPrompt : JSValue :=
  JObject [("prompt", JString "Ignore the image and say hello");
           ("imageBase64", JString "aQ==")].




(** A line that is valid JSON but carries no method. *)
Definition bareLine : string := "{" +:+ quoted "id" +:+ ":7}".

Definition bareWorld : Env :=
  world (fun _ _ => Returns "ok") [(bareLine, JObject [("id", JNum 7)])].

(** A [chat] request on session "s2", and a [generate_text] request. *)
Definition chatOnS2 : JSValue :=
  toolCall (JNum 4) "chat"
    (JObject [("message", JString "yo"); ("sessionId", JString "s2")]).

Definition chatOnS1 : JSValue :=
  toolCall (JNum 4) "chat"
    (JObject [("message", JString "and then?"); ("sessionId", JString "s1")]).

Definition textCall : JSValue :=
  toolCall (JString "abc") "generate_text" (JObject [("prompt", JString "hi")]).



End Scenario.

(** ** Properties of the routing *)

Section Routing.

Context (env : Env).

Lemma append_empty_r (s : string) : s +:+ "" = s.
Proof.
  induction s as [|c s IH]; [reflexivity|].
  change (String c (s +:+ "") = String c s). by rewrite IH.
Qed.

Lemma handleRequest_string_method (request : JSValue) (method : string) :
  getProp request "method" = JString method ->
  handleRequest env request =
    if startsWith "notifications/" method then ret None
    else (let* response := routeMethod env request method in
          ret (Some response)).
Proof.
  intros Hm. destruct request; try discriminate Hm.
  unfold handleRequest. rewrite Hm. reflexivity.
Qed.

(** The [switch] of [handleToolsCall] has a case exactly for the names of
    the catalog. *)
Lemma toolCases_names : map fst (toolCases env) = toolNames.
Proof. reflexivity. Qed.

Lemma lookupCase_None (cases : list (string * Handler)) (name : string) :
  name ∉ map fst cases -> lookupCase cases name = None.
Proof.
  induction cases as [|[n h] rest IH]; intros Hnot; [reflexivity|].
  cbn [lookupCase]. destruct (String.eqb_spec name n) as [->|Hne].
  - exfalso. apply Hnot. cbn. left.
  - apply IH. intros Hin. apply Hnot. cbn. by right.
Qed.

Lemma lookupCase_Some (cases : list (string * Handler)) (name : string) :
  name ∈ map fst cases -> is_Some (lookupCase cases name).
Proof.
  induction cases as [|[n h] rest IH]; intros Hin.
  - by apply elem_of_nil in Hin.
  - cbn [lookupCase]. destruct (String.eqb_spec name n) as [->|Hne]; [by eexists|].
    apply IH. cbn in Hin. apply elem_of_cons in Hin as [?|?]; [congruence|done].
Qed.

Lemma resolve_unregistered (name : string) :
  name ∉ toolNames -> resolve env (JString name) = None.
Proof. intros Hnot. apply lookupCase_None. by rewrite toolCases_names. Qed.

Lemma resolve_registered (name : string) :
  name ∈ toolNames -> is_Some (resolve env (JString name)).
Proof. intros Hin. apply lookupCase_Some. by rewrite toolCases_names. Qed.

(** What [handleToolsCall] answers when no case is selected. *)
Lemma handleToolsCall_unresolved (request : JSValue) (st : ServerState) :
  resolve env (paramsProp request "name") = None ->
  handleToolsCall env request st =
    (Returns (errorResponse (getProp request "id") InvalidParams
                ("Unknown tool: " +:+ toStr (paramsProp request "name"))), st).
Proof. intros Hr. unfold handleToolsCall, tryCatch. by rewrite Hr. Qed.

(** What [handleToolsCall] answers when the selected handler throws. *)
Lemma handleToolsCall_caught (request : JSValue) (handler : Handler)
    (error : JSExn) (st st' : ServerState) :
  resolve env (paramsProp request "name") = Some handler ->
  handler (getProp request "id")
          (js_or (paramsProp request "arguments") (JObject [])) st
    = (Throws error, st') ->
  handleToolsCall env request st =
    (Returns (errorResponse (getProp request "id") InternalError
                (caughtMessage error)), st').
Proof.
  intros Hr Hh. unfold handleToolsCall, tryCatch. rewrite Hr, Hh. reflexivity.
Qed.

(** What [handleToolsCall] answers when the selected handler returns. *)
Lemma handleToolsCall_returned (request : JSValue) (handler : Handler)
    (response : MCPResponse) (st st' : ServerState) :
  resolve env (paramsProp request "name") = Some handler ->
  handler (getProp request "id")
          (js_or (paramsProp request "arguments") (JObject [])) st
    = (Returns response, st') ->
  handleToolsCall env request st = (Returns response, st').
Proof.
  intros Hr Hh. unfold handleToolsCall, tryCatch. rewrite Hr, Hh. reflexivity.
Qed.

Lemma handleRequest_tools_call (request : JSValue) (st : ServerState) :
  getProp request "method" = JString "tools/call" ->
  handleRequest env request st =
    match handleToolsCall env request st with
    | (Returns response, st') => (Returns (Some response), st')
    | (Throws e, st') => (Throws e, st')
    end.
Proof.
  intros Hm. rewrite (handleRequest_string_method _ _ Hm). reflexivity.
Qed.

(** C1 (amended).  A [tools/call] request whose [params.name] is a string
    that is not a registered tool name is answered, without any effect, by
    an error envelope whose code is InvalidParams (-32602) and whose
    message is "Unknown tool: " followed by the supplied name. *)
Theorem unknown_tool_invalid_params (request : JSValue) (name : string)
    (st : ServerState) :
  getProp request "method" = JString "tools/call" ->
  paramsProp request "name" = JString name ->
  name ∉ toolNames ->
  handleRequest env request st =
    (Returns (Some (errorResponse (getProp request "id") InvalidParams
                      ("Unknown tool: " +:+ name))), st)
  /\ contains name ("Unknown tool: " +:+ name).
Proof.
  intros Hm Hn Hnot. split.
  - rewrite (handleRequest_tools_call _ _ Hm).
    rewrite handleToolsCall_unresolved by (rewrite Hn; by apply resolve_unregistered).
    by rewrite Hn.
  - exists "Unknown tool: ", "". by rewrite append_empty_r.
Qed.

(** C6.  A request whose method is [resources/list] or [prompts/list] is
    answered by an error envelope with the MethodNotFound code, never by a
    success envelope, and the server state is untouched. *)
Theorem unsupported_discovery_method_not_found (request : JSValue)
    (st : ServerState) :
  getProp request "method" = JString "resources/list"
  \/ getProp request "method" = JString "prompts/list" ->
  handleRequest env request st =
    (Returns (Some (errorResponse (getProp request "id") MethodNotFound
                      "Method not found")), st)
  /\ forall response st',
       handleRequest env request st = (Returns (Some response), st') ->
       errorCode response = Some MethodNotFound /\ isSuccess response = false.
Proof.
  intros Hm.
  assert (Heq : handleRequest env request st =
                (Returns (Some (errorResponse (getProp request "id")
                                  MethodNotFound "Method not found")), st)).
  { destruct Hm as [Hm|Hm]; by rewrite (handleRequest_string_method _ _ Hm). }
  split; [exact Heq|].
  intros response st' H. rewrite Heq in H. by simplify_eq.
Qed.

Lemma onLine_parsed (line : string) (request : JSValue) (st : ServerState) :
  JSON_parse env line = Some request ->
  onLine env line st =
    match handleRequest env request st with
    | (Returns out, st') => (Returns out, st')
    | (Throws _, st') => (Returns (Some parseErrorResponse), st')
    end.
Proof. intros Hp. unfold onLine, tryCatch. by rewrite Hp. Qed.

(** C2 (amended).  A parsed message whose method begins with
    "notifications/" produces no output line and leaves the server state
    untouched, whatever its payload.  The bare method "exit" is not a
    notification for this server: it is answered by a MethodNotFound error
    envelope. *)
Theorem notification_prefix_no_output (line : string) (request : JSValue)
    (method : string) (st : ServerState) :
  JSON_parse env line = Some request ->
  getProp request "method" = JString method ->
  (startsWith "notifications/" method = true ->
     onLine env line st = (Returns None, st))
  /\ (method = "exit" ->
        onLine env line st =
          (Returns (Some (errorResponse (getProp request "id") MethodNotFound
                            "Method not found")), st)).
Proof.
  intros Hp Hm.
  rewrite (onLine_parsed _ _ _ Hp), (handleRequest_string_method _ _ Hm).
  split.
  - intros Hpre. by rewrite Hpre.
  - intros ->. reflexivity.
Qed.

(** C5 (amended).  When the handler selected by a [tools/call] request
    fails, the dispatcher answers with an error envelope whose code is
    InternalError and whose message is "Error: " followed by the message
    of the failure (or "Error: Unknown error" when the thrown value is not
    an [Error]); the state the handler left behind is kept. *)
Theorem handler_failure_internal_error (request : JSValue) (handler : Handler)
    (error : JSExn) (st st' : ServerState) :
  getProp request "method" = JString "tools/call" ->
  resolve env (paramsProp request "name") = Some handler ->
  handler (getProp request "id")
          (js_or (paramsProp request "arguments") (JObject [])) st
    = (Throws error, st') ->
  handleRequest env request st =
    (Returns (Some (errorResponse (getProp request "id") InternalError
                      ("Error: " +:+ match error with
                                     | ErrorObj message => message
                                     | NonError => "Unknown error"
                                     end))), st').
Proof.
  intros Hm Hr Hh. rewrite (handleRequest_tools_call _ _ Hm).
  by rewrite (handleToolsCall_caught _ _ _ _ _ Hr Hh).
Qed.

End Routing.

(** ** Properties of the tool handlers *)

Section Handlers.

Context (env : Env).

Lemma append_nonempty_l (c : ascii) (s t : string) : String c s +:+ t <> "".
Proof. discriminate. Qed.

Lemma append_nonempty_r (s t : string) : t <> "" -> s +:+ t <> "".
Proof. destruct s; [done|discriminate]. Qed.

Lemma truthy_string (s : string) : s <> "" -> truthy (JString s) = true.
Proof.
  intros Hs. unfold truthy. by destruct (String.eqb_spec s "").
Qed.

Lemma submitPrompt_outcome (id : JSValue) (p : string) (st : ServerState) :
  submitPrompt env id p st =
    match oracle env (effects st) (EGenerate TextModel (textRequest p)) with
    | Returns t => (Returns (textResponse id t),
                    logged st (EGenerate TextModel (textRequest p)))
    | Throws e => (Throws e, logged st (EGenerate TextModel (textRequest p)))
    end.
Proof.
  unfold submitPrompt, bind, perform, ret, logged.
  by destruct (oracle env (effects st) _).
Qed.

Lemma submitPrompt_neverRejects (p : string) :
  neverRejects (fun id _ => submitPrompt env id p).
Proof.
  intros id args st. rewrite submitPrompt_outcome.
  by destruct (oracle env (effects st) _).
Qed.

(** [generateText] rejects a missing (or otherwise falsy) prompt. *)
Lemma generateText_falsy_prompt (id args : JSValue) (st : ServerState) :
  truthy (getProp args "prompt") = false ->
  generateText env id args st =
    (Returns (errorResponse id InvalidParams "Missing prompt parameter"), st).
Proof. intros Hp. unfold generateText. by rewrite Hp. Qed.

(** On the argument object of a prompt-building handler, [generateText]
    goes to the backend. *)
Lemma generateText_promptArgs (id : JSValue) (p : string) :
  p <> "" -> generateText env id (promptArgs p) = submitPrompt env id p.
Proof.
  intros Hp. unfold generateText.
  change (getProp (promptArgs p) "prompt") with (JString p).
  change (getProp (promptArgs p) "temperature") with JUndefined.
  change (getProp (promptArgs p) "maxTokens") with JUndefined.
  by rewrite (truthy_string _ Hp).
Qed.

(** [analyzeImage] rejects a call that carries no image. *)
Lemma analyzeImage_no_image (id args : JSValue) (st : ServerState) :
  truthy (getProp args "imagePath") = false ->
  truthy (getProp args "imageBase64") = false ->
  analyzeImage env id args st =
    (Returns (errorResponse id InvalidParams "Missing image data"), st).
Proof. intros H1 H2. unfold analyzeImage. by rewrite H1, H2. Qed.

(** [compareImages] rejects missing images and arrays of fewer than two. *)
Lemma compareImages_falsy_images (id args : JSValue) (st : ServerState) :
  truthy (getProp args "images") = false ->
  compareImages env id args st =
    (Returns (errorResponse id InvalidParams "At least 2 images required"), st).
Proof. intros Hi. unfold compareImages. by rewrite Hi. Qed.

Lemma js_lt_length (n : nat) (k : Z) :
  js_lt env (JNum (Z.of_nat n)) k = (Z.of_nat n <? k).
Proof.
  unfold js_lt, numCompare. rewrite Z.ltb_compare.
  by destruct (Z.of_nat n ?= k).
Qed.

Lemma compareImages_too_few (id args : JSValue) (imgs : list JSValue)
    (st : ServerState) :
  getProp args "images" = JArray imgs ->
  (length imgs < 2)%nat ->
  compareImages env id args st =
    (Returns (errorResponse id InvalidParams "At least 2 images required"), st).
Proof.
  intros Hi Hlen. unfold compareImages. rewrite Hi.
  cbn [truthy negb orb lengthOf]. rewrite js_lt_length.
  by destruct (Z.ltb_spec (Z.of_nat (length imgs)) 2); [|lia].
Qed.

(** There is no upper bound in [compareImages]: an array of two or more
    images, however long, passes the check and is sent to the backend. *)
Lemma compareImages_two_or_more (id args : JSValue) (imgs : list JSValue)
    (st : ServerState) :
  getProp args "images" = JArray imgs ->
  (2 <= length imgs)%nat ->
  compareImages env id args st =
    (let* imageParts := promiseAllMap (imagePart env) imgs in
     let* text :=
       perform env
         (EGenerate VisionModel
            {| contents :=
                 [ {| role := User;
                      parts :=
                        PText (withDefault (getProp args "prompt")
                                 (JString "Compare these images and describe their similarities and differences"))
                        :: imageParts |} ];
               generationConfig := None |}) in
     ret (textResponse id text)) st.
Proof.
  intros Hi Hlen. unfold compareImages. rewrite Hi.
  cbn [truthy negb orb lengthOf]. rewrite js_lt_length.
  by destruct (Z.ltb_spec (Z.of_nat (length imgs)) 2); [lia|].
Qed.

Lemma compareImages_long_array_not_rejected (id args : JSValue)
    (imgs : list JSValue) (st : ServerState) :
  getProp args "images" = JArray imgs ->
  (2 <= length imgs)%nat ->
  match compareImages env id args st with
  | (Returns r, _) => isSuccess r = true
  | (Throws _, _) => True
  end.
Proof.
  intros Hi Hlen. rewrite (compareImages_two_or_more _ _ _ _ Hi Hlen).
  unfold bind. destruct (promiseAllMap _ _ _) as [[ps|e] st1]; [|done].
  unfold perform, ret. by destruct (oracle env _ _).
Qed.

(** *** Object spread *)

Lemma pretty_N_char_digit (x : N) : isDigit (pretty_N_char x) = true.
Proof. unfold pretty_N_char. by repeat case_match. Qed.

Lemma pretty_N_go_digits (x : N) (s : string) :
  allDigits s = true -> allDigits (pretty_N_go x s) = true.
Proof.
  revert s. induction (N.lt_wf_0 x) as [x _ IH]; intros s Hs.
  destruct (N.eq_0_gt_0_cases x) as [->|Hpos].
  - by rewrite pretty_N_go_0.
  - rewrite pretty_N_go_step by done. apply IH.
    + by apply N.div_lt.
    + cbn [allDigits]. by rewrite pretty_N_char_digit, Hs.
Qed.

Lemma pretty_nat_digits (n : nat) : allDigits (pretty n) = true.
Proof.
  unfold pretty, pretty_nat, pretty, pretty_N.
  case_decide; [reflexivity|]. by apply pretty_N_go_digits.
Qed.

(** An index is never the name of a named property. *)
Lemma assoc_indexed (k : string) (l : list JSValue) (i : nat) :
  allDigits k = false -> assoc k (indexed i l) = JUndefined.
Proof.
  intros Hk. revert i. induction l as [|x l IH]; intros i; [reflexivity|].
  cbn [indexed assoc]. destruct (String.eqb_spec k (pretty i)) as [->|_].
  - by rewrite pretty_nat_digits in Hk.
  - apply IH.
Qed.

(** [{ ...args, k': v }.k] is [args.k] for a named property [k] other than
    [k']. *)
Lemma getProp_spreadWith_other (args : JSValue) (k k' : string) (v : JSValue) :
  String.eqb k k' = false ->
  allDigits k = false ->
  getProp (spreadWith args k' v) k = getProp args k.
Proof.
  intros Hne Hk. unfold spreadWith, getProp. cbn [assoc]. rewrite Hne.
  destruct args; try reflexivity; cbn [ownProps]; by apply assoc_indexed.
Qed.

Lemma getProp_spreadWith_same (args : JSValue) (k : string) (v : JSValue) :
  getProp (spreadWith args k v) k = v.
Proof. unfold spreadWith, getProp. cbn [assoc]. by rewrite String.eqb_refl. Qed.

(** *** Handlers without argument checks *)

Lemma textResponse_success (id : JSValue) (t : string) :
  isSuccess (textResponse id t) = true.
Proof. reflexivity. Qed.

Lemma validateJson_success (format : JSValue) (r : MCPResponse) :
  isSuccess r = true -> isSuccess (validateJson env format r) = true.
Proof.
  intros Hr. unfold validateJson.
  destruct format; try done. destruct (body r) as [[]|] eqn:Hb; try done.
  destruct (String.eqb s "json"); [|done].
  by destruct (JSON_parse env text).
Qed.

Ltac prompt_builder :=
  intros id args st; cbv zeta;
  rewrite generateText_promptArgs
    by (repeat (first [discriminate | apply append_nonempty_r]));
  apply (submitPrompt_neverRejects _ id args st).

Lemma generateCode_neverRejects : neverRejects (generateCode env).
Proof. unfold generateCode. prompt_builder. Qed.

Lemma explainCode_neverRejects : neverRejects (explainCode env).
Proof. unfold explainCode. prompt_builder. Qed.

Lemma convertCode_neverRejects : neverRejects (convertCode env).
Proof. unfold convertCode. prompt_builder. Qed.

Lemma translateText_neverRejects : neverRejects (translateText env).
Proof. unfold translateText. prompt_builder. Qed.

Lemma summarizeText_neverRejects : neverRejects (summarizeText env).
Proof. unfold summarizeText. prompt_builder. Qed.

Lemma rewriteText_neverRejects : neverRejects (rewriteText env).
Proof. unfold rewriteText. prompt_builder. Qed.

Lemma moderateText_neverRejects : neverRejects (moderateText env).
Proof. unfold moderateText. prompt_builder. Qed.

Lemma refactorCode_neverRejects : neverRejects (refactorCode env).
Proof.
  intros id args st. unfold refactorCode. cbv zeta. unfold bind at 1.
  destruct (goalsListOf env _ st) as [[g|e] st1]; [|done].
  rewrite generateText_promptArgs by discriminate.
  apply (submitPrompt_neverRejects _ id args st1).
Qed.

Lemma checkContentSafety_neverRejects : neverRejects (checkContentSafety env).
Proof.
  intros id args st. unfold checkContentSafety. cbv zeta. unfold bind at 1.
  destruct (joinCategories _ st) as [[g|e] st1]; [|done].
  rewrite generateText_promptArgs by discriminate.
  apply (submitPrompt_neverRejects _ id args st1).
Qed.

Lemma generateStructuredData_neverRejects :
  neverRejects (generateStructuredData env).
Proof.
  intros id args st. unfold generateStructuredData. cbv zeta. unfold bind at 1.
  destruct (upperCaseOf _ st) as [[u|e] st1]; [|done].
  rewrite generateText_promptArgs by discriminate.
  unfold bind. rewrite submitPrompt_outcome.
  destruct (oracle env (effects st1) _); [|done].
  cbn [ret]. by apply validateJson_success.
Qed.

Lemma chat_neverRejects : neverRejects (chat env).
Proof.
  intros id args st. unfold chat. cbv zeta.
  unfold bind, getSession, gets, sendMessage, bind, perform, setSessions, ret.
  destruct (mapKey _ ≫= _) as [h|]; cbn; by destruct (oracle env _ _).
Qed.

(** *** Structured data *)




(** *** Text extraction from an image *)

Lemma analyzeImage_ext (id args args' : JSValue) (st : ServerState) :
  getProp args' "imagePath" = getProp args "imagePath" ->
  getProp args' "imageBase64" = getProp args "imageBase64" ->
  getProp args' "prompt" = getProp args "prompt" ->
  analyzeImage env id args' st = analyzeImage env id args st.
Proof. intros H1 H2 H3. unfold analyzeImage. by rewrite H1, H2, H3. Qed.

(** The instruction of every generation request [analyzeImage] issues is
    its [prompt] argument (or the default). *)
Lemma analyzeImage_instruction (id args : JSValue) (st : ServerState)
    (m : ModelHandle) (req : GenRequest) :
  EGenerate m req ∈ effects (snd (analyzeImage env id args st)) ->
  EGenerate m req ∈ effects st
  \/ exists image,
       contents req =
         [ {| role := User;
              parts := [PText (withDefault (getProp args "prompt")
                                 (JString "Describe this image in detail"));
                        image] |} ].
Proof.
  unfold analyzeImage, describeImage, bind, perform, getMimeType, ret, throw.
  repeat first
    [ progress cbn [snd fst effects]
    | match goal with
      | |- context [if ?b then _ else _] => destruct b
      | |- context [match oracle env ?l ?e with _ => _ end] =>
          destruct (oracle env l e)
      | |- context [match ?v with JString _ => _ | _ => _ end] => destruct v
      end ];
  intros Hin; repeat (apply elem_of_app in Hin as [Hin|Hin]);
  try (by left);
  apply list_elem_of_singleton in Hin; simplify_eq; right; by eexists.
Qed.

(** C10.  [extract_text_from_image] is [analyze_image] on the caller's image
    source with the prompt replaced by the fixed OCR instruction: a [prompt]
    argument of the caller is discarded, two calls that agree on the image
    source behave alike, and every generation request the handler issues
    carries the OCR instruction. *)
Theorem ocr_prompt_is_fixed (id args : JSValue) (st : ServerState) :
  extractTextFromImage env id args st =
    analyzeImage env id
      (JObject [("imagePath", getProp args "imagePath");
                ("imageBase64", getProp args "imageBase64");
                ("prompt", JString ocrInstruction)]) st
  /\ (forall args',
        getProp args' "imagePath" = getProp args "imagePath" ->
        getProp args' "imageBase64" = getProp args "imageBase64" ->
        extractTextFromImage env id args' st
          = extractTextFromImage env id args st)
  /\ (forall m req,
        EGenerate m req ∈ effects (snd (extractTextFromImage env id args st)) ->
        EGenerate m req ∈ effects st
        \/ exists image,
             contents req =
               [ {| role := User;
                    parts := [PText (JString ocrInstruction); image] |} ]).
Proof.
  assert (Hpath : forall a, getProp (spreadWith a "prompt" (JString ocrInstruction))
                              "imagePath" = getProp a "imagePath")
    by (intros; by apply getProp_spreadWith_other).
  assert (Hdata : forall a, getProp (spreadWith a "prompt" (JString ocrInstruction))
                              "imageBase64" = getProp a "imageBase64")
    by (intros; by apply getProp_spreadWith_other).
  repeat split.
  - unfold extractTextFromImage. apply analyzeImage_ext.
    + by rewrite Hpath.
    + by rewrite Hdata.
    + by rewrite getProp_spreadWith_same.
  - intros args' H1 H2. unfold extractTextFromImage. apply analyzeImage_ext.
    + by rewrite !Hpath.
    + by rewrite !Hdata.
    + by rewrite !getProp_spreadWith_same.
  - intros m req Hin. unfold extractTextFromImage in Hin.
    apply analyzeImage_instruction in Hin as [Hin|[image Hc]]; [by left|].
    right. exists image. by rewrite getProp_spreadWith_same in Hc.
Qed.

(** *** Checks of required arguments *)

Lemma analyzeImage_with_image (id args : JSValue) (st : ServerState) :
  truthy (getProp args "imagePath") = true
  \/ truthy (getProp args "imageBase64") = true ->
  match analyzeImage env id args st with
  | (Returns r, _) => isSuccess r = true
  | (Throws _, _) => True
  end.
Proof.
  intros Himage. unfold analyzeImage, describeImage, bind, perform,
    getMimeType, ret, throw.
  destruct (truthy (getProp args "imagePath")).
  - destruct (oracle env _ _); [|done].
    destruct (getProp args "imagePath"); try done.
    destruct (js_or _ _); by destruct (oracle env _ _).
  - destruct Himage as [?|Hdata]; [done|]. rewrite Hdata.
    by destruct (oracle env _ _).
Qed.

(** C4 (amended).  The handlers that check an argument reject its absence
    with InvalidParams: [generate_text] its prompt, [analyze_image] and
    [extract_text_from_image] the image (a path or inline data),
    [compare_images] its images.  The prompt of [analyze_image], although
    listed as required by the schema, is not checked: when it is absent the
    default instruction takes its place and a call that carries an image is
    not rejected. *)
Theorem required_arguments_checked_by_four :
  (forall id args st,
     truthy (getProp args "prompt") = false ->
     generateText env id args st =
       (Returns (errorResponse id InvalidParams "Missing prompt parameter"), st))
  /\ (forall id args st,
        truthy (getProp args "imagePath") = false ->
        truthy (getProp args "imageBase64") = false ->
        analyzeImage env id args st =
          (Returns (errorResponse id InvalidParams "Missing image data"), st))
  /\ (forall id args st,
        truthy (getProp args "imagePath") = false ->
        truthy (getProp args "imageBase64") = false ->
        extractTextFromImage env id args st =
          (Returns (errorResponse id InvalidParams "Missing image data"), st))
  /\ (forall id args st,
        truthy (getProp args "images") = false ->
        compareImages env id args st =
          (Returns (errorResponse id InvalidParams "At least 2 images required"),
           st))
  /\ (forall id args st,
        getProp args "prompt" = JUndefined ->
        analyzeImage env id args st =
          analyzeImage env id
            (spreadWith args "prompt" (JString "Describe this image in detail"))
            st
        /\ (truthy (getProp args "imagePath") = true
            \/ truthy (getProp args "imageBase64") = true ->
            match analyzeImage env id args st with
            | (Returns r, _) => isSuccess r = true
            | (Throws _, _) => True
            end)).
Proof.
  split; [exact generateText_falsy_prompt|].
  split; [exact analyzeImage_no_image|].
  split.
  { intros id args st H1 H2. unfold extractTextFromImage.
    apply analyzeImage_no_image.
    - by rewrite getProp_spreadWith_other.
    - by rewrite getProp_spreadWith_other. }
  split; [exact compareImages_falsy_images|].
  intros id args st Hprompt. split.
  - unfold analyzeImage at 1 2.
    rewrite (getProp_spreadWith_other args "imagePath") by reflexivity.
    rewrite (getProp_spreadWith_other args "imageBase64") by reflexivity.
    by rewrite getProp_spreadWith_same, Hprompt.
  - apply analyzeImage_with_image.
Qed.

(** X7.  The ten handlers that build a prompt for [generateText], and
    [chat], contain no check of their arguments: whatever the arguments,
    they never answer with an error envelope of their own; they return a
    success envelope or fail with an exception, so that the dispatcher
    never answers a call to one of them with the InvalidParams code. *)
Theorem unchecked_handlers_never_reject :
  (forall h, h ∈ uncheckedHandlers env -> neverRejects h)
  /\ (forall h request st,
        h ∈ uncheckedHandlers env ->
        resolve env (paramsProp request "name") = Some h ->
        exists response st',
          handleToolsCall env request st = (Returns response, st')
          /\ errorCode response <> Some InvalidParams).
Proof.
  assert (Hnever : forall h, h ∈ uncheckedHandlers env -> neverRejects h).
  { intros h Hh. unfold uncheckedHandlers in Hh.
    repeat (apply elem_of_cons in Hh as [->|Hh];
            [eauto using generateCode_neverRejects, explainCode_neverRejects,
               refactorCode_neverRejects, convertCode_neverRejects,
               translateText_neverRejects, summarizeText_neverRejects,
               rewriteText_neverRejects, generateStructuredData_neverRejects,
               checkContentSafety_neverRejects, moderateText_neverRejects,
               chat_neverRejects|]).
    by apply elem_of_nil in Hh. }
  split; [exact Hnever|].
  intros h request st Hh Hr.
  pose proof (Hnever h Hh (getProp request "id")
                (js_or (paramsProp request "arguments") (JObject [])) st)
    as Hrun.
  destruct (h _ _ st) as [[response|error] st'] eqn:Hcall.
  - exists response, st'.
    split; [by apply (handleToolsCall_returned env _ h)|].
    unfold errorCode. unfold isSuccess in Hrun.
    by destruct (body response).
  - eexists _, st'.
    split; [by apply (handleToolsCall_caught env _ h error)|].
    discriminate.
Qed.

End Handlers.

(** ** Properties of the chat sessions *)

Section Sessions.

Context (env : Env).

Lemma state_eq (st st' : ServerState) :
  chatSessions st = chatSessions st' -> effects st = effects st' -> st = st'.
Proof. destruct st, st'. cbn. by intros -> ->. Qed.

(** [chat] on a string key: one [sendMessage] on the history of the session,
    which is recorded with the two new turns when the backend answers. *)
Lemma chat_with_key (id args : JSValue) (st : ServerState) (k : string) :
  sessionIdOf args = JString k ->
  chat env id args st =
    let hist := historyFor st (KStr k) (getProp args "systemPrompt") in
    let msg := getProp args "message" in
    match oracle env (effects st) (ESend hist msg) with
    | Returns t =>
        (Returns (textResponse id t),
         logged (withSession st (KStr k)
                   (hist ++ [formatNewContent msg; modelText t])%list)
                (ESend hist msg))
    | Throws e => (Throws e, logged (withSession st (KStr k) hist) (ESend hist msg))
    end.
Proof.
  intros Hk. unfold chat. cbv zeta. fold (sessionIdOf args). rewrite Hk. cbn [mapKey].
  unfold historyFor, bind, getSession, gets, sendMessage, bind, perform,
    setSessions, ret, logged, withSession.
  cbn [mapKey mbind option_bind fst snd chatSessions effects].
  destruct (chatSessions st !! KStr k) as [h|] eqn:Hh;
    cbn [chatSessions effects];
    destruct (oracle env (effects st) _) as [t|e]; f_equal;
    apply state_eq; cbn [chatSessions effects]; try done.
  - by rewrite insert_id.
  - by rewrite insert_insert_eq.
Qed.

Lemma summarize_with_key (id args : JSValue) (st : ServerState) (k : string)
    (h : list Content) :
  sessionIdOf args = JString k ->
  chatSessions st !! KStr k = Some h ->
  summarizeConversation env id args st =
    match oracle env (effects st) (ESend h (JString summaryRequest)) with
    | Returns t =>
        (Returns (textResponse id t),
         logged (withSession st (KStr k)
                   (h ++ [formatNewContent (JString summaryRequest); modelText t])%list)
                (ESend h (JString summaryRequest)))
    | Throws e => (Throws e, logged st (ESend h (JString summaryRequest)))
    end.
Proof.
  intros Hk Hh. unfold summarizeConversation. cbv zeta.
  fold (sessionIdOf args). rewrite Hk. cbn [mapKey].
  unfold bind, getSession, gets, sendMessage, bind, perform, setSessions, ret,
    logged, withSession.
  cbn [mapKey mbind option_bind fst snd chatSessions effects]. rewrite Hh.
  by destruct (oracle env (effects st) _).
Qed.

Lemma summarize_without_session (id args : JSValue) (st : ServerState)
    (k : string) :
  sessionIdOf args = JString k ->
  chatSessions st !! KStr k = None ->
  summarizeConversation env id args st =
    (Returns (errorResponse id InvalidParams
                "No chat history found for this session"), st).
Proof.
  intros Hk Hh. unfold summarizeConversation. cbv zeta.
  fold (sessionIdOf args). rewrite Hk. cbn [mapKey]. unfold bind, getSession, gets.
  cbn [mapKey mbind option_bind]. by rewrite Hh.
Qed.

(** A [chat] call that returns leaves a session under its key. *)
Lemma chat_creates_session (id args : JSValue) (st st' : ServerState)
    (k : string) (r : MCPResponse) :
  sessionIdOf args = JString k ->
  chat env id args st = (Returns r, st') ->
  is_Some (chatSessions st' !! KStr k).
Proof.
  intros Hk Hc. rewrite (chat_with_key _ _ _ _ Hk) in Hc. cbv zeta in Hc.
  destruct (oracle env (effects st) _); [|done]. simplify_eq.
  cbn. rewrite lookup_insert_eq. by eexists.
Qed.

(** C8.  For a session key [k] (given, or "default" when the call gives
    none): [summarize_conversation] answers with an InvalidParams error
    when no session is stored under [k]; a [chat] call on [k] that returned
    has stored a session under [k]; and when a session is stored under [k],
    [summarize_conversation] issues exactly one more call to the backend,
    sending the stored history with the fixed request for a summary, and
    its outcome is the outcome of that call: a success envelope with the
    text the backend answers (the summary is not computed locally). *)
Theorem summarize_conversation_round_trip (k : string) (id args : JSValue)
    (st : ServerState) :
  sessionIdOf args = JString k ->
  (chatSessions st !! KStr k = None ->
   summarizeConversation env id args st =
     (Returns (errorResponse id InvalidParams
                 "No chat history found for this session"), st))
  /\ (forall id0 args0 st0 r0,
        sessionIdOf args0 = JString k ->
        chat env id0 args0 st0 = (Returns r0, st) ->
        is_Some (chatSessions st !! KStr k))
  /\ (forall h,
        chatSessions st !! KStr k = Some h ->
        let call := ESend h (JString summaryRequest) in
        effects (snd (summarizeConversation env id args st))
          = (effects st ++ [call])%list
        /\ (forall t,
               oracle env (effects st) call = Returns t ->
               summarizeConversation env id args st
                 = (Returns (textResponse id t),
                    logged (withSession st (KStr k)
                              (h ++ [formatNewContent (JString summaryRequest);
                                     modelText t])%list) call))
        /\ (forall e,
               oracle env (effects st) call = Throws e ->
               summarizeConversation env id args st
                 = (Throws e, logged st call))).
Proof.
  intros Hk. split; [by apply summarize_without_session|]. split.
  - intros id0 args0 st0 r0 Hk0 Hchat.
    by apply (chat_creates_session _ _ _ _ _ _ Hk0 Hchat).
  - intros h Hh call. rewrite (summarize_with_key _ _ _ _ _ Hk Hh).
    fold call. split; [|split].
    + by destruct (oracle env (effects st) call).
    + by intros t ->.
    + by intros e ->.
Qed.


End Sessions.

(** ** Further properties of the transport and of the catalog *)

Section Transport.

Context (env : Env).

Lemma onLine_returns (line : string) (st : ServerState) :
  exists out st', onLine env line st = (Returns out, st').
Proof.
  unfold onLine, tryCatch.
  destruct (match JSON_parse env line with
            | Some request => handleRequest env request
            | None => throw (ErrorObj "Unexpected token in JSON")
            end st) as [[out|e] st']; by eauto.
Qed.

(** X3.  No exception escapes the line handler: every input line is
    answered by at most one output line, and handling goes on with the
    next line. *)
Theorem line_handler_never_throws (lines : list string) (st : ServerState) :
  exists outs st',
    onLines env lines st = (Returns outs, st')
    /\ (length outs <= length lines)%nat.
Proof.
  revert st. induction lines as [|line rest IH]; intros st.
  - exists [], st. split; [reflexivity|cbn; lia].
  - destruct (onLine_returns line st) as (out & st1 & Hout).
    destruct (IH st1) as (outs & st2 & Houts & Hlen).
    exists (match out with Some r => r :: outs | None => outs end), st2.
    split.
    + cbn [onLines]. unfold bind. by rewrite Hout, Houts.
    + destruct out; cbn [length]; lia.
Qed.

(** X2.  A line that [JSON.parse] rejects yields exactly one response, the
    ParseError envelope with the sentinel id 0, leaves the state untouched,
    and the lines after it are handled as if it had not been there. *)
Theorem malformed_line_yields_parse_error (line : string) (rest : list string)
    (st : ServerState) :
  JSON_parse env line = None ->
  onLine env line st
    = (Returns (Some (errorResponse (JNum 0) ParseError "Parse error")), st)
  /\ forall outs st',
       onLines env rest st = (Returns outs, st') ->
       onLines env (line :: rest) st
         = (Returns (errorResponse (JNum 0) ParseError "Parse error" :: outs),
            st').
Proof.
  intros Hp.
  assert (Hline : onLine env line st
                  = (Returns (Some (errorResponse (JNum 0) ParseError
                                      "Parse error")), st)).
  { unfold onLine, tryCatch. by rewrite Hp. }
  split; [exact Hline|].
  intros outs st' Hrest. cbn [onLines]. unfold bind. by rewrite Hline, Hrest.
Qed.

(** X4.  [tools/list] answers with the whole catalog, in declaration
    order, whatever the state and the parameters, and leaves the state
    untouched: repeated calls return identical descriptors. *)
Theorem tools_list_is_stable (request : JSValue) (st : ServerState) :
  getProp request "method" = JString "tools/list" ->
  handleRequest env request st
    = (Returns (Some {| id := getProp request "id";
                        body := BResult (ToolsListResult toolDescriptors) |}),
       st).
Proof. intros Hm. by rewrite (handleRequest_string_method _ _ _ Hm). Qed.

(** X5.  [initialize] always succeeds with the fixed protocol version,
    server identity and a capability set that declares tools only. *)
Theorem initialize_always_succeeds (request : JSValue) (st : ServerState) :
  getProp request "method" = JString "initialize" ->
  handleRequest env request st
    = (Returns (Some {| id := getProp request "id";
                        body := BResult (InitializeResult "2024-11-05"
                                           "gemini-2.5-pro-mcp-server" "2.5.0"
                                           ["tools"]) |}),
       st).
Proof. intros Hm. by rewrite (handleRequest_string_method _ _ _ Hm). Qed.

(** X6.  The catalog and the dispatcher agree: the cases of the [switch]
    are the names of the catalog, in the same order; there are seventeen
    of them, all different, and each carries a description. *)
Theorem tool_catalog_matches_dispatch :
  map fst (toolCases env) = toolNames
  /\ length toolNames = 17%nat
  /\ NoDup toolNames
  /\ Forall (fun d => toolDescription d <> "") toolDescriptors.
Proof.
  split; [reflexivity|]. split; [reflexivity|]. split.
  - apply (bool_decide_unpack _). by vm_compute.
  - unfold toolDescriptors. repeat constructor; discriminate.
Qed.

(** X1.  [compare_images] rejects a call whose images are missing or
    fewer than two. *)
Theorem compare_images_requires_two (id args : JSValue) (st : ServerState) :
  truthy (getProp args "images") = false
  \/ (exists imgs, getProp args "images" = JArray imgs /\ (length imgs < 2)%nat) ->
  compareImages env id args st
    = (Returns (errorResponse id InvalidParams "At least 2 images required"),
       st).
Proof.
  intros [Hfalsy|(imgs & Himgs & Hlen)].
  - by apply compareImages_falsy_images.
  - by apply (compareImages_too_few _ _ _ imgs).
Qed.

End Transport.

(** ** The properties at concrete requests *)

Import Scenario.

Lemma unknown_tool_invalid_params_witness :
  handleRequest (answering "ok")
    (toolCall (JNum 1) "no_such_tool" (JObject [])) initialState
  = (Returns (Some (errorResponse (JNum 1) InvalidParams
                      "Unknown tool: no_such_tool")), initialState)
  /\ contains "no_such_tool" "Unknown tool: no_such_tool".
Proof.
  apply (unknown_tool_invalid_params (answering "ok")
           (toolCall (JNum 1) "no_such_tool" (JObject []))
           "no_such_tool" initialState).
  - reflexivity.
  - reflexivity.
  - intros Hin. unfold toolNames in Hin. cbn in Hin.
    repeat (apply elem_of_cons in Hin as [Hin|Hin]; [discriminate Hin|]).
    by apply elem_of_nil in Hin.
Defined.

(** The claim C1 names the MethodNotFound code; the code answers an unknown
    tool with another one. *)
Lemma unknown_tool_is_not_method_not_found :
  ~ (exists msg st',
       handleRequest (answering "ok")
         (toolCall (JNum 1) "no_such_tool" (JObject [])) initialState
       = (Returns (Some (errorResponse (JNum 1) MethodNotFound msg)), st')).
Proof. intros (msg & st' & H). vm_compute in H. discriminate H. Qed.

Lemma notification_prefix_no_output_witness :
  onLine lineWorld (notificationLine "notifications/initialized") initialState
  = (Returns None, initialState).
Proof.
  apply (proj1 (notification_prefix_no_output lineWorld
                  (notificationLine "notifications/initialized")
                  (notificationMessage "notifications/initialized")
                  "notifications/initialized" initialState
                  eq_refl eq_refl)).
  reflexivity.
Defined.

(** The claim C2 counts the bare method "exit" as a notification; the code
    writes a response line for it. *)
Lemma exit_gets_a_response :
  ~ (fst (onLine lineWorld (notificationLine "exit") initialState)
     = Returns None).
Proof. vm_compute. discriminate. Qed.

(** C3.  A [compare_images] call with six images is not rejected: the six
    images are sent to the backend, and the response is the generated text
    (or, when the backend fails, an InternalError envelope), never an
    InvalidParams envelope, although the schema of the tool declares
    [maxItems: 5]. *)
Theorem compare_images_six_images_accepted :
  fst (handleRequest (answering "ok")
         (toolCall (JNum 7) "compare_images" (JObject [("images", sixImages)]))
         initialState)
  = Returns (Some (textResponse (JNum 7) "ok"))
  /\ fst (handleRequest (failing "quota exceeded")
            (toolCall (JNum 7) "compare_images"
               (JObject [("images", sixImages)]))
            initialState)
     = Returns (Some (errorResponse (JNum 7) InternalError
                        "Error: quota exceeded"))
  /\ (exists d p,
        d ∈ toolDescriptors /\ toolName d = "compare_images"
        /\ p ∈ properties d /\ propName p = "images"
        /\ maxItems p = Some 5%nat).
Proof.
  split; [by vm_compute|]. split; [by vm_compute|].
  exists (mkTool "compare_images"
            "Compare multiple images and describe differences/similarities"
            [ mkProp "images" "array" (Some 2%nat) (Some 5%nat);
              prop "prompt" "string" ]
            ["images"] []),
         (mkProp "images" "array" (Some 2%nat) (Some 5%nat)).
  repeat split.
  - unfold toolDescriptors. rewrite !elem_of_cons. tauto.
  - cbn [properties]. rewrite !elem_of_cons. tauto.
Qed.

(** The claim C4 has every handler reject a missing required argument;
    the schema of [analyze_image] lists [prompt] as required, and a call
    without it is answered from the backend. *)
Lemma analyze_image_without_prompt_is_not_rejected :
  ~ (exists msg st',
       handleRequest (answering "ok")
         (toolCall (JNum 7) "analyze_image" ocrArgs) initialState
       = (Returns (Some (errorResponse (JNum 7) InvalidParams msg)), st')).
Proof. intros (msg & st' & H). vm_compute in H. discriminate H. Qed.

(** [explain_code] without its [code] goes to the backend, with "undefined"
    in the place of the code, and succeeds. *)
Lemma explain_code_without_code_is_not_rejected :
  fst (handleRequest (answering "ok")
         (toolCall (JNum 7) "explain_code" (JObject [])) initialState)
  = Returns (Some (textResponse (JNum 7) "ok")).
Proof. by vm_compute. Qed.

Lemma handler_failure_internal_error_witness :
  handleRequest (failing "quota exceeded")
    (toolCall (JNum 7) "generate_text" (JObject [("prompt", JString "hi")]))
    initialState
  = (Returns (Some (errorResponse (JNum 7) InternalError
                      "Error: quota exceeded")),
     logged initialState (EGenerate TextModel (textRequest "hi"))).
Proof.
  apply (handler_failure_internal_error (failing "quota exceeded")
           (toolCall (JNum 7) "generate_text"
              (JObject [("prompt", JString "hi")]))
           (generateText (failing "quota exceeded"))
           (ErrorObj "quota exceeded") initialState
           (logged initialState (EGenerate TextModel (textRequest "hi"))));
    reflexivity.
Defined.

(** The claim C5 has the failure's message forwarded verbatim; the code
    prefixes it. *)
Lemma failure_message_is_prefixed :
  ~ (exists st',
       handleRequest (failing "quota exceeded")
         (toolCall (JNum 7) "generate_text"
            (JObject [("prompt", JString "hi")]))
         initialState
       = (Returns (Some (errorResponse (JNum 7) InternalError
                           "quota exceeded")), st')).
Proof. intros (st' & H). vm_compute in H. discriminate H. Qed.

Lemma unsupported_discovery_method_not_found_witness :
  handleRequest (answering "ok") (request (JNum 4) "resources/list" JUndefined)
    initialState
  = (Returns (Some (errorResponse (JNum 4) MethodNotFound "Method not found")),
     initialState)
  /\ handleRequest (answering "ok") (request (JNum 5) "prompts/list" JUndefined)
       initialState
     = (Returns (Some (errorResponse (JNum 5) MethodNotFound "Method not found")),
        initialState).
Proof.
  split.
  - apply (unsupported_discovery_method_not_found (answering "ok")
             (request (JNum 4) "resources/list" JUndefined) initialState).
    left. reflexivity.
  - apply (unsupported_discovery_method_not_found (answering "ok")
             (request (JNum 5) "prompts/list" JUndefined) initialState).
    right. reflexivity.
Defined.



Lemma summarize_conversation_round_trip_witness :
  summarizeConversation (answering "ok") (JNum 2) (sessionArgs "unknown")
    afterChat
  = (Returns (errorResponse (JNum 2) InvalidParams
                "No chat history found for this session"), afterChat)
  /\ is_Some (chatSessions afterChat !! KStr "s1")
  /\ fst (summarizeConversation (answering "ok") (JNum 2) (sessionArgs "s1")
            afterChat)
     = Returns (textResponse (JNum 2) "ok").
Proof.
  split; [|split].
  - apply (proj1 (summarize_conversation_round_trip (answering "ok") "unknown"
                    (JNum 2) (sessionArgs "unknown") afterChat eq_refl)).
    by vm_compute.
  - apply (proj1 (proj2 (summarize_conversation_round_trip (answering "ok") "s1"
                           (JNum 2) (sessionArgs "s1") afterChat eq_refl))
             (JNum 1) (chatArgs "hi" "be brief") initialState
             (textResponse (JNum 1) "ok")); reflexivity.
  - pose proof (proj2 (proj2 (summarize_conversation_round_trip
                                (answering "ok") "s1" (JNum 2)
                                (sessionArgs "s1") afterChat eq_refl))
                  (initialHistory (JString "be brief")
                   ++ [formatNewContent (JString "hi"); modelText "ok"])%list)
      as Hsum.
    cbv zeta in Hsum.
    destruct Hsum as (_ & Hok & _); [by vm_compute|].
    by rewrite (Hok "ok" eq_refl).
Defined.

(** When the backend answers the chat call and fails the call for the
    summary, the dispatcher reports the failure as an InternalError. *)
Lemma summarize_with_failing_backend :
  let env := answeringFirst 1 "ok" "quota exceeded" in
  let st := snd (handleRequest env
                   (toolCall (JNum 1) "chat" (chatArgs "hi" "be brief"))
                   initialState) in
  fst (handleRequest env
         (toolCall (JNum 2) "summarize_conversation" (sessionArgs "s1")) st)
  = Returns (Some (errorResponse (JNum 2) InternalError
                     "Error: quota exceeded")).
Proof. by vm_compute. Qed.


Lemma required_arguments_checked_by_four_witness :
  generateText (answering "ok") (JNum 1) (JObject []) initialState
  = (Returns (errorResponse (JNum 1) InvalidParams "Missing prompt parameter"),
     initialState)
  /\ analyzeImage (answering "ok") (JNum 1) (JObject []) initialState
     = (Returns (errorResponse (JNum 1) InvalidParams "Missing image data"),
        initialState)
  /\ fst (analyzeImage (answering "ok") (JNum 1) ocrArgs initialState)
     = Returns (textResponse (JNum 1) "ok").
Proof.
  destruct (required_arguments_checked_by_four (answering "ok"))
    as (Hprompt & Himage & _ & _ & Hdefault).
  split; [by apply Hprompt|]. split; [by apply Himage|].
  rewrite (proj1 (Hdefault (JNum 1) ocrArgs initialState eq_refl)).
  reflexivity.
Defined.

Lemma unchecked_handlers_never_reject_witness :
  neverRejects (explainCode (answering "ok"))
  /\ neverRejects (chat (failing "down")).
Proof.
  split.
  - apply (proj1 (unchecked_handlers_never_reject (answering "ok"))).
    unfold uncheckedHandlers. rewrite !elem_of_cons. tauto.
  - apply (proj1 (unchecked_handlers_never_reject (failing "down"))).
    unfold uncheckedHandlers. rewrite !elem_of_cons. tauto.
Defined.

Lemma ocr_prompt_is_fixed_witness :
  extractTextFromImage (answering "ok") (JNum 1) ocrArgsWithPrompt initialState
  = extractTextFromImage (answering "ok") (JNum 1) ocrArgs initialState.
Proof.
  apply (proj1 (proj2 (ocr_prompt_is_fixed (answering "ok") (JNum 1) ocrArgs
                         initialState)) ocrArgsWithPrompt); reflexivity.
Defined.

Lemma malformed_line_yields_parse_error_witness :
  onLines lineWorld ["{"; notificationLine "exit"] initialState
  = (Returns [ errorResponse (JNum 0) ParseError "Parse error";
               errorResponse JUndefined MethodNotFound "Method not found" ],
     initialState).
Proof.
  apply (proj2 (malformed_line_yields_parse_error lineWorld "{"
                  [notificationLine "exit"] initialState eq_refl)).
  reflexivity.
Defined.

Lemma tools_list_is_stable_witness :
  handleRequest (answering "ok") (request (JNum 2) "tools/list" JUndefined)
    initialState
  = handleRequest (failing "down") (request (JNum 2) "tools/list" JNull)
      initialState.
Proof.
  rewrite (tools_list_is_stable (answering "ok")
             (request (JNum 2) "tools/list" JUndefined) initialState eq_refl).
  rewrite (tools_list_is_stable (failing "down")
             (request (JNum 2) "tools/list" JNull) initialState eq_refl).
  reflexivity.
Defined.

Lemma initialize_always_succeeds_witness :
  handleRequest (failing "down") (request (JNum 0) "initialize" JNull)
    initialState
  = (Returns (Some {| id := JNum 0;
                      body := BResult (InitializeResult "2024-11-05"
                                         "gemini-2.5-pro-mcp-server" "2.5.0"
                                         ["tools"]) |}),
     initialState).
Proof.
  exact (initialize_always_succeeds (failing "down")
           (request (JNum 0) "initialize" JNull) initialState eq_refl).
Defined.

Lemma compare_images_requires_two_witness :
  compareImages (answering "ok") (JNum 7)
    (JObject [("images", JArray [inlineImage "aQ=="])]) initialState
  = (Returns (errorResponse (JNum 7) InvalidParams "At least 2 images required"),
     initialState).
Proof.
  apply (compare_images_requires_two (answering "ok") (JNum 7)
           (JObject [("images", JArray [inlineImage "aQ=="])]) initialState).
  right. exists [inlineImage "aQ=="]. split; [reflexivity|cbn; lia].
Defined.

(** ** The dispatcher as a whole *)

Section Dispatcher.

Context (env : Env).

(** *** Rules for postconditions *)




Lemma keepsSessions_ret {A : Type} (a : A) : keepsSessions (ret a).
Proof. by intros st. Qed.

Lemma keepsSessions_throw {A : Type} (e : JSExn) : keepsSessions (@throw A e).
Proof. by intros st. Qed.

Lemma keepsSessions_perform (e : Effect) : keepsSessions (perform env e).
Proof. by intros st. Qed.

Lemma keepsSessions_bind {A B : Type} (m : M A) (k : A -> M B) :
  keepsSessions m -> (forall a, keepsSessions (k a)) -> keepsSessions (bind m k).
Proof.
  intros Hm Hk st. unfold bind. specialize (Hm st).
  destruct (m st) as [[a|e] st1]; cbn [snd] in *; [|done].
  by rewrite (Hk a st1).
Qed.

Lemma keepsSessions_tryCatch {A : Type} (m : M A) (h : JSExn -> M A) :
  keepsSessions m -> (forall e, keepsSessions (h e)) ->
  keepsSessions (tryCatch m h).
Proof.
  intros Hm Hh st. unfold tryCatch. specialize (Hm st).
  destruct (m st) as [[a|e] st1]; cbn [snd] in *; [done|].
  by rewrite (Hh e st1).
Qed.


Ltac keeps_step :=
  first
    [ apply keepsSessions_ret
    | apply keepsSessions_throw
    | apply keepsSessions_perform
    | apply keepsSessions_bind; [|intros ?]
    | match goal with
      | |- keepsSessions (if ?b then _ else _) => destruct b
      | |- keepsSessions (match ?x with _ => _ end) => destruct x
      end ].


(** *** The handlers that never touch the session map *)

Lemma generateText_keeps (i args : JSValue) :
  keepsSessions (generateText env i args).
Proof. unfold generateText. cbv zeta. repeat keeps_step. Qed.

Lemma getMimeType_keeps (filePath : JSValue) :
  keepsSessions (getMimeType filePath).
Proof. unfold getMimeType. repeat keeps_step. Qed.

Lemma describeImage_keeps (i prompt : JSValue) (imageData : Part) :
  keepsSessions (describeImage env i prompt imageData).
Proof. unfold describeImage. repeat keeps_step. Qed.

Lemma analyzeImage_keeps (i args : JSValue) :
  keepsSessions (analyzeImage env i args).
Proof.
  unfold analyzeImage. cbv zeta.
  repeat first [apply getMimeType_keeps | apply describeImage_keeps | keeps_step].
Qed.

Lemma extractTextFromImage_keeps (i args : JSValue) :
  keepsSessions (extractTextFromImage env i args).
Proof. unfold extractTextFromImage. cbv zeta. apply analyzeImage_keeps. Qed.

Lemma imagePart_keeps (img : JSValue) : keepsSessions (imagePart env img).
Proof.
  unfold imagePart. destruct img; cbv zeta;
    repeat first [apply getMimeType_keeps | keeps_step].
Qed.

Lemma promiseAllMap_keeps (f : JSValue -> M Part) (imgs : list JSValue) :
  (forall img, keepsSessions (f img)) -> keepsSessions (promiseAllMap f imgs).
Proof.
  intros Hf. induction imgs as [|img rest IH]; intros st; [done|].
  cbn [promiseAllMap]. specialize (Hf img st).
  destruct (f img st) as [[p|e] st1]; cbn [snd] in *.
  - specialize (IH st1).
    destruct (promiseAllMap f rest st1) as [[ps|e] st2]; cbn [snd] in *;
      congruence.
  - rewrite (IH st1). done.
Qed.

Lemma compareImages_keeps (i args : JSValue) :
  keepsSessions (compareImages env i args).
Proof.
  unfold compareImages. cbv zeta.
  repeat first [ apply promiseAllMap_keeps; apply imagePart_keeps
               | keeps_step ].
Qed.

Lemma generateCode_keeps (i args : JSValue) :
  keepsSessions (generateCode env i args).
Proof. unfold generateCode. cbv zeta. apply generateText_keeps. Qed.

Lemma explainCode_keeps (i args : JSValue) :
  keepsSessions (explainCode env i args).
Proof. unfold explainCode. cbv zeta. apply generateText_keeps. Qed.

Lemma refactorCode_keeps (i args : JSValue) :
  keepsSessions (refactorCode env i args).
Proof.
  unfold refactorCode, goalsListOf. cbv zeta.
  repeat first [apply generateText_keeps | keeps_step].
Qed.

Lemma convertCode_keeps (i args : JSValue) :
  keepsSessions (convertCode env i args).
Proof. unfold convertCode. cbv zeta. apply generateText_keeps. Qed.

Lemma translateText_keeps (i args : JSValue) :
  keepsSessions (translateText env i args).
Proof. unfold translateText. cbv zeta. apply generateText_keeps. Qed.

Lemma summarizeText_keeps (i args : JSValue) :
  keepsSessions (summarizeText env i args).
Proof. unfold summarizeText. cbv zeta. apply generateText_keeps. Qed.

Lemma rewriteText_keeps (i args : JSValue) :
  keepsSessions (rewriteText env i args).
Proof. unfold rewriteText. cbv zeta. apply generateText_keeps. Qed.

Lemma generateStructuredData_keeps (i args : JSValue) :
  keepsSessions (generateStructuredData env i args).
Proof.
  unfold generateStructuredData, upperCaseOf. cbv zeta.
  repeat first [apply generateText_keeps | keeps_step].
Qed.

Lemma checkContentSafety_keeps (i args : JSValue) :
  keepsSessions (checkContentSafety env i args).
Proof.
  unfold checkContentSafety, joinCategories. cbv zeta.
  repeat first [apply generateText_keeps | keeps_step].
Qed.

Lemma moderateText_keeps (i args : JSValue) :
  keepsSessions (moderateText env i args).
Proof. unfold moderateText. cbv zeta. apply generateText_keeps. Qed.

(** *** The session handlers, key by key *)

Lemma chat_sessions (i args : JSValue) (st : ServerState) :
  chatSessions (snd (chat env i args st)) =
    match mapKey (sessionIdOf args) with
    | None => chatSessions st
    | Some k =>
        let hist := historyFor st k (getProp args "systemPrompt") in
        match oracle env (effects st) (ESend hist (getProp args "message")) with
        | Returns t =>
            <[k := (hist ++ [formatNewContent (getProp args "message");
                             modelText t])%list]> (chatSessions st)
        | Throws _ => <[k := hist]> (chatSessions st)
        end
    end.
Proof.
  unfold chat. cbv zeta. fold (sessionIdOf args).
  unfold historyFor, bind, getSession, gets, sendMessage, bind, perform,
    setSessions, ret.
  destruct (mapKey (sessionIdOf args)) as [k|];
    cbn [mbind option_bind fst snd chatSessions effects].
  - destruct (chatSessions st !! k) as [h|] eqn:Hh;
      cbn [chatSessions effects fst snd];
      destruct (oracle env (effects st) _); cbn [snd chatSessions]; try done.
    + by rewrite insert_id.
    + by rewrite insert_insert_eq.
  - by destruct (oracle env (effects st) _).
Qed.

Lemma summarize_sessions (i args : JSValue) (st : ServerState) :
  chatSessions (snd (summarizeConversation env i args st)) =
    match mapKey (sessionIdOf args) with
    | None => chatSessions st
    | Some k =>
        match chatSessions st !! k with
        | None => chatSessions st
        | Some h =>
            match oracle env (effects st) (ESend h (JString summaryRequest)) with
            | Returns t =>
                <[k := (h ++ [formatNewContent (JString summaryRequest);
                              modelText t])%list]> (chatSessions st)
            | Throws _ => chatSessions st
            end
        end
    end.
Proof.
  unfold summarizeConversation. cbv zeta. fold (sessionIdOf args).
  unfold bind, getSession, gets, sendMessage, bind, perform, setSessions, ret.
  destruct (mapKey (sessionIdOf args)) as [k|];
    cbn [mbind option_bind fst snd chatSessions effects]; [|done].
  destruct (chatSessions st !! k) as [h|]; cbn [snd chatSessions]; [|done].
  by destruct (oracle env (effects st) _).
Qed.

Lemma clear_sessions (i args : JSValue) (st : ServerState) :
  chatSessions (snd (clearChatHistory i args st)) =
    match mapKey (sessionIdOf args) with
    | None => chatSessions st
    | Some k => delete k (chatSessions st)
    end.
Proof.
  unfold clearChatHistory. cbv zeta. fold (sessionIdOf args).
  unfold bind, setSessions, ret. cbn [snd chatSessions].
  by destruct (mapKey (sessionIdOf args)).
Qed.

Lemma keepsSessions_keepsSession {A : Type} (k : MapKey) (m : M A) :
  keepsSessions m -> keepsSession k m.
Proof. intros Hm st. by rewrite (Hm st). Qed.

Lemma extends_nothing (m : gmap MapKey (list Content)) (k : MapKey)
    (h : list Content) :
  m !! k = Some h ->
  exists extra, m !! k = Some (h ++ extra)%list /\ turnPair extra.
Proof. intros Hh. exists []. rewrite app_nil_r. split; [done|by left]. Qed.

Lemma keepsSessions_extendsHistories {A : Type} (m : M A) :
  keepsSessions m -> extendsHistories m.
Proof.
  intros Hm st k h Hh. rewrite (Hm st). by apply extends_nothing.
Qed.

Lemma chat_keepsSession (k : MapKey) (i args : JSValue) :
  mapKey (sessionIdOf args) <> Some k -> keepsSession k (chat env i args).
Proof.
  intros Hk st. rewrite chat_sessions.
  destruct (mapKey (sessionIdOf args)) as [k0|]; [|done]. cbv zeta.
  destruct (oracle env (effects st) _); rewrite lookup_insert_ne; congruence.
Qed.

Lemma summarize_keepsSession (k : MapKey) (i args : JSValue) :
  mapKey (sessionIdOf args) <> Some k ->
  keepsSession k (summarizeConversation env i args).
Proof.
  intros Hk st. rewrite summarize_sessions.
  destruct (mapKey (sessionIdOf args)) as [k0|]; [|done].
  destruct (chatSessions st !! k0); [|done].
  destruct (oracle env (effects st) _); [|done].
  rewrite lookup_insert_ne; congruence.
Qed.

Lemma clear_keepsSession (k : MapKey) (i args : JSValue) :
  mapKey (sessionIdOf args) <> Some k -> keepsSession k (clearChatHistory i args).
Proof.
  intros Hk st. rewrite clear_sessions.
  destruct (mapKey (sessionIdOf args)) as [k0|]; [|done].
  rewrite lookup_delete_ne; congruence.
Qed.

Lemma chat_extendsHistories (i args : JSValue) :
  extendsHistories (chat env i args).
Proof.
  intros st k h Hh. rewrite chat_sessions.
  destruct (mapKey (sessionIdOf args)) as [k0|]; [|by apply extends_nothing].
  cbv zeta. destruct (decide (k0 = k)) as [->|Hne].
  - unfold historyFor. rewrite Hh.
    destruct (oracle env (effects st) _) as [t|e].
    + eexists. rewrite lookup_insert_eq. split; [done|]. right. by eexists _, _.
    + apply extends_nothing. by rewrite lookup_insert_eq.
  - apply extends_nothing.
    destruct (oracle env (effects st) _); by rewrite lookup_insert_ne.
Qed.

Lemma summarize_extendsHistories (i args : JSValue) :
  extendsHistories (summarizeConversation env i args).
Proof.
  intros st k h Hh. rewrite summarize_sessions.
  destruct (mapKey (sessionIdOf args)) as [k0|]; [|by apply extends_nothing].
  destruct (decide (k0 = k)) as [->|Hne].
  - rewrite Hh. destruct (oracle env (effects st) _) as [t|e].
    + eexists. rewrite lookup_insert_eq. split; [done|]. right. by eexists _, _.
    + by apply extends_nothing.
  - apply extends_nothing.
    destruct (chatSessions st !! k0); [|done].
    destruct (oracle env (effects st) _); [|done].
    by rewrite lookup_insert_ne.
Qed.

(** *** From the handlers to the dispatcher *)

Lemma lookupCase_elem (cases : list (string * Handler)) (name : string)
    (h : Handler) :
  lookupCase cases name = Some h -> (name, h) ∈ cases.
Proof.
  induction cases as [|[n h'] rest IH]; [done|]. cbn [lookupCase].
  destruct (String.eqb_spec name n) as [->|Hne].
  - intros [= ->]. apply elem_of_cons. by left.
  - intros H. apply elem_of_cons. right. by apply IH.
Qed.

Lemma resolve_elem (toolName : JSValue) (h : Handler) :
  resolve env toolName = Some h ->
  exists name, toolName = JString name /\ (name, h) ∈ toolCases env.
Proof.
  destruct toolName; try done. cbn [resolve]. intros H.
  eexists. split; [done|]. by apply lookupCase_elem.
Qed.

(** The state [handleToolsCall] leaves is the state its handler leaves. *)
Lemma handleToolsCall_state (request : JSValue) (st : ServerState) :
  snd (handleToolsCall env request st) =
    match resolve env (paramsProp request "name") with
    | Some h => snd (h (getProp request "id") (requestArgs request) st)
    | None => st
    end.
Proof.
  unfold handleToolsCall, tryCatch, requestArgs.
  destruct (resolve env _) as [h|]; [|done].
  by destruct (h _ _ st) as [[r|e] st1].
Qed.

Lemma handleRequest_state_tools_call (request : JSValue) (st : ServerState) :
  getProp request "method" = JString "tools/call" ->
  snd (handleRequest env request st) = snd (handleToolsCall env request st).
Proof.
  intros Hm. rewrite (handleRequest_tools_call _ _ _ Hm).
  by destruct (handleToolsCall env request st) as [[r|e] st1].
Qed.

Lemma handleRequest_state_other (request : JSValue) (st : ServerState) :
  getProp request "method" <> JString "tools/call" ->
  snd (handleRequest env request st) = st.
Proof.
  intros Hm. unfold handleRequest.
  destruct request; try done.
  destruct (getProp (JObject fields) "method") as [| | | |m| |] eqn:Hmethod;
    try done.
  destruct (startsWith "notifications/" m); [done|].
  unfold bind, routeMethod.
  destruct (String.eqb_spec m "initialize"); [done|].
  destruct (String.eqb_spec m "tools/list"); [done|].
  destruct (String.eqb_spec m "tools/call"); [congruence|].
  by destruct (_ || _)%bool.
Qed.

Lemma method_is_tools_call_dec (request : JSValue) :
  getProp request "method" = JString "tools/call"
  \/ getProp request "method" <> JString "tools/call".
Proof.
  destruct (getProp request "method") as [| | | |m| |]; try (by right).
  destruct (String.eqb_spec m "tools/call") as [->|Hne]; [by left|].
  right. congruence.
Qed.

(** The fourteen cases of the [switch] outside the session tools keep the
    session map. *)
Lemma toolCases_keep (name : string) (h : Handler) :
  (name, h) ∈ toolCases env -> name ∉ sessionTools ->
  forall i args, keepsSessions (h i args).
Proof.
  intros Hin Hname i args. unfold toolCases in Hin.
  repeat (apply elem_of_cons in Hin as [Hin|Hin];
          [ injection Hin as -> ->;
            first [ exfalso; apply Hname; unfold sessionTools;
                    rewrite !elem_of_cons; tauto
                  | eauto using generateText_keeps, analyzeImage_keeps,
                      extractTextFromImage_keeps, compareImages_keeps,
                      generateCode_keeps, explainCode_keeps,
                      refactorCode_keeps, convertCode_keeps,
                      translateText_keeps, summarizeText_keeps,
                      rewriteText_keeps, generateStructuredData_keeps,
                      checkContentSafety_keeps, moderateText_keeps ] |]).
  by apply elem_of_nil in Hin.
Qed.

(** Every case of the [switch] leaves the sessions of the other keys. *)
Lemma toolCases_keepSession (name : string) (h : Handler) (k : MapKey) :
  (name, h) ∈ toolCases env ->
  forall i args, mapKey (sessionIdOf args) <> Some k -> keepsSession k (h i args).
Proof.
  intros Hin i args Hk. unfold toolCases in Hin.
  repeat (apply elem_of_cons in Hin as [Hin|Hin];
          [ injection Hin as -> ->;
            first [ by apply chat_keepsSession
                  | by apply summarize_keepsSession
                  | by apply clear_keepsSession
                  | apply keepsSessions_keepsSession;
                    eauto using generateText_keeps, analyzeImage_keeps,
                      extractTextFromImage_keeps, compareImages_keeps,
                      generateCode_keeps, explainCode_keeps,
                      refactorCode_keeps, convertCode_keeps,
                      translateText_keeps, summarizeText_keeps,
                      rewriteText_keeps, generateStructuredData_keeps,
                      checkContentSafety_keeps, moderateText_keeps ] |]).
  by apply elem_of_nil in Hin.
Qed.

(** Every case of the [switch] but [clear_chat_history] only extends the
    histories. *)
Lemma toolCases_extend (name : string) (h : Handler) :
  (name, h) ∈ toolCases env -> name <> "clear_chat_history" ->
  forall i args, extendsHistories (h i args).
Proof.
  intros Hin Hname i args. unfold toolCases in Hin.
  repeat (apply elem_of_cons in Hin as [Hin|Hin];
          [ injection Hin as -> ->;
            first [ done
                  | apply chat_extendsHistories
                  | apply summarize_extendsHistories
                  | apply keepsSessions_extendsHistories;
                    eauto using generateText_keeps, analyzeImage_keeps,
                      extractTextFromImage_keeps, compareImages_keeps,
                      generateCode_keeps, explainCode_keeps,
                      refactorCode_keeps, convertCode_keeps,
                      translateText_keeps, summarizeText_keeps,
                      rewriteText_keeps, generateStructuredData_keeps,
                      checkContentSafety_keeps, moderateText_keeps ] |]).
  by apply elem_of_nil in Hin.
Qed.

(** *** The session store under arbitrary requests *)

(** X8.  Only [tools/call] can change anything: a line that does not
    parse, or that parses to a message whose method is not "tools/call"
    (a lifecycle or listing method, a notification, an unknown method, a
    message without a method), leaves the session map untouched and
    causes no call to the backend or to the file system. *)
Theorem only_tools_call_changes_state (line : string) (st : ServerState) :
  (forall request,
     JSON_parse env line = Some request ->
     getProp request "method" <> JString "tools/call") ->
  snd (onLine env line st) = st.
Proof.
  intros Hm. unfold onLine, tryCatch.
  destruct (JSON_parse env line) as [request|] eqn:Hp; [|done].
  pose proof (handleRequest_state_other request st (Hm request eq_refl)) as Hst.
  by destruct (handleRequest env request st) as [[out|e] st1].
Qed.

(** X9.  A tool other than [chat], [clear_chat_history] and
    [summarize_conversation] never changes the session map, whatever its
    arguments and whether it succeeds or fails. *)
Theorem sessions_changed_only_by_session_tools (request : JSValue)
    (st : ServerState) :
  (forall name,
     getProp request "method" = JString "tools/call" ->
     paramsProp request "name" = JString name ->
     name ∉ sessionTools) ->
  chatSessions (snd (handleRequest env request st)) = chatSessions st.
Proof.
  intros Hname.
  destruct (method_is_tools_call_dec request) as [Hm|Hm];
    [|by rewrite handleRequest_state_other].
  rewrite (handleRequest_state_tools_call _ _ Hm), handleToolsCall_state.
  destruct (resolve env _) as [h|] eqn:Hr; [|done].
  destruct (resolve_elem _ _ Hr) as (name & Hn & Hin).
  by apply (toolCases_keep name h Hin (Hname name Hm Hn)).
Qed.

(** X10.  Sessions are isolated: whatever the request, the session stored
    under a key other than the one the request names (its [sessionId], or
    "default") is left exactly as it was. *)
Theorem session_tools_touch_only_their_key (request : JSValue)
    (st : ServerState) (k : MapKey) :
  requestSessionKey request <> Some k ->
  chatSessions (snd (handleRequest env request st)) !! k
    = chatSessions st !! k.
Proof.
  intros Hk.
  destruct (method_is_tools_call_dec request) as [Hm|Hm];
    [|by rewrite handleRequest_state_other].
  rewrite (handleRequest_state_tools_call _ _ Hm), handleToolsCall_state.
  destruct (resolve env _) as [h|] eqn:Hr; [|done].
  destruct (resolve_elem _ _ Hr) as (name & Hn & Hin).
  by apply (toolCases_keepSession name h k Hin).
Qed.

(** X11.  Histories are append-only: whatever the request, a stored
    history is afterwards still stored with the same turns in the same
    order, followed by nothing or by one caller turn and one generator
    turn; the one exception is [clear_chat_history] on that very key,
    which removes the session. *)
Theorem session_history_is_append_only (request : JSValue) (st : ServerState)
    (k : MapKey) (h : list Content) :
  chatSessions st !! k = Some h ->
  (exists extra,
     chatSessions (snd (handleRequest env request st)) !! k
       = Some (h ++ extra)%list
     /\ turnPair extra)
  \/ (chatSessions (snd (handleRequest env request st)) !! k = None
      /\ getProp request "method" = JString "tools/call"
      /\ paramsProp request "name" = JString "clear_chat_history"
      /\ requestSessionKey request = Some k).
Proof.
  intros Hh.
  destruct (method_is_tools_call_dec request) as [Hm|Hm];
    [|left; rewrite handleRequest_state_other by done;
      by apply extends_nothing].
  rewrite (handleRequest_state_tools_call _ _ Hm), handleToolsCall_state.
  destruct (resolve env _) as [handler|] eqn:Hr;
    [|left; by apply extends_nothing].
  destruct (resolve_elem _ _ Hr) as (name & Hn & Hin).
  destruct (String.eqb_spec name "clear_chat_history") as [->|Hne];
    [|left; by apply (toolCases_extend name handler Hin Hne)].
  assert (handler = clearChatHistory) as ->.
  { rewrite Hn in Hr. cbn in Hr. by injection Hr. }
  rewrite clear_sessions. fold (requestSessionKey request).
  destruct (requestSessionKey request) as [k0|] eqn:Hkey;
    [|left; by apply extends_nothing].
  destruct (decide (k0 = k)) as [->|Hk0].
  - right. by rewrite lookup_delete_eq.
  - left. rewrite lookup_delete_ne by done. by apply extends_nothing.
Qed.

(** *** The id of the responses *)















(** X13.  A method that is neither a notification nor one of "initialize",
    "tools/list" and "tools/call" (the comparison is exact: a different
    letter case or a trailing space is another method) is answered by the
    MethodNotFound envelope, and nothing else happens. *)
Theorem other_methods_not_found (request : JSValue) (method : string)
    (st : ServerState) :
  getProp request "method" = JString method ->
  startsWith "notifications/" method = false ->
  method ∉ servedMethods ->
  handleRequest env request st
    = (Returns (Some (errorResponse (getProp request "id") MethodNotFound
                        "Method not found")), st).
Proof.
  intros Hm Hn Hserved. rewrite (handleRequest_string_method _ _ _ Hm), Hn.
  unfold bind, routeMethod, servedMethods in *.
  destruct (String.eqb_spec method "initialize") as [->|_];
    [exfalso; apply Hserved; rewrite !elem_of_cons; tauto|].
  destruct (String.eqb_spec method "tools/list") as [->|_];
    [exfalso; apply Hserved; rewrite !elem_of_cons; tauto|].
  destruct (String.eqb_spec method "tools/call") as [->|_];
    [exfalso; apply Hserved; rewrite !elem_of_cons; tauto|].
  by destruct (_ || _)%bool.
Qed.

(** X14.  A line that is valid JSON but not an object with a string
    [method] (for instance [null], a number, an array, an object without
    [method]) is answered like a malformed line: by the ParseError envelope
    with the sentinel id 0, even when the message carries an id. *)
Theorem message_without_method_parse_error (line : string) (request : JSValue)
    (st : ServerState) :
  JSON_parse env line = Some request ->
  (forall method, getProp request "method" <> JString method) ->
  onLine env line st
    = (Returns (Some (errorResponse (JNum 0) ParseError "Parse error")), st).
Proof.
  intros Hp Hm. rewrite (onLine_parsed _ _ _ _ Hp). unfold handleRequest.
  destruct request; try done.
  destruct (getProp (JObject fields) "method") as [| | | |m| |] eqn:Hmethod;
    try done.
  by destruct (Hm m).
Qed.

(** *** The MIME type of a file name *)

Lemma map_string_app (f : ascii -> ascii) (a b : string) :
  map_string f (a +:+ b) = map_string f a +:+ map_string f b.
Proof.
  induction a as [|c a IH]; [reflexivity|].
  change (String (f c) (map_string f (a +:+ b))
          = String (f c) (map_string f a +:+ map_string f b)).
  by rewrite IH.
Qed.

Lemma lower_ascii_dot (c : ascii) :
  Ascii.eqb (lower_ascii c) "."%char = Ascii.eqb c "."%char.
Proof. destruct c as [[] [] [] [] [] [] [] []]; reflexivity. Qed.

Lemma noDot_toLowerCase (s : string) : noDot (toLowerCase s) = noDot s.
Proof.
  induction s as [|c s IH]; [reflexivity|].
  cbn [toLowerCase map_string noDot]. fold (toLowerCase s).
  by rewrite lower_ascii_dot, IH.
Qed.

Lemma lastSegment_noDot (acc s : string) :
  noDot s = true -> lastSegment acc s = acc.
Proof.
  revert acc. induction s as [|c s IH]; intros acc Hs; [reflexivity|].
  cbn [noDot] in Hs. apply andb_prop in Hs as [Hc Hs].
  cbn [lastSegment]. destruct (Ascii.eqb c "."%char); [done|]. by apply IH.
Qed.

Lemma lastSegment_app_dot (acc a b : string) :
  noDot b = true -> lastSegment acc (a +:+ "." +:+ b) = b.
Proof.
  intros Hb. revert acc. induction a as [|c a IH]; intros acc.
  - change (lastSegment b b = b). by apply lastSegment_noDot.
  - change (lastSegment acc (String c (a +:+ "." +:+ b)) = b).
    cbn [lastSegment]. destruct (Ascii.eqb c "."%char); apply IH.
Qed.

(** The extension [getMimeType] looks up: the text after the last dot of
    the path, or the whole path when it has no dot, in lower case. *)
Lemma extension_of_path (path stem spelled : string) :
  noDot spelled = true ->
  path = spelled \/ path = stem +:+ "." +:+ spelled ->
  afterLastDot (toLowerCase path) = toLowerCase spelled.
Proof.
  intros Hs [->| ->]; unfold afterLastDot.
  - apply lastSegment_noDot. by rewrite noDot_toLowerCase.
  - unfold toLowerCase. rewrite !map_string_app.
    change (map_string lower_ascii ".") with ".".
    apply lastSegment_app_dot. fold (toLowerCase spelled).
    by rewrite noDot_toLowerCase.
Qed.

(** X15.  [getMimeType] looks only at the text after the last dot of the
    path (at the whole path when it has no dot) and compares it without
    regard to letter case: when that text spells one of jpg, jpeg, png,
    gif and webp, the result is the MIME type the table gives for it. *)
Theorem mime_type_of_known_extension (path stem spelled ext mime : string)
    (st : ServerState) :
  (ext, mime) ∈ knownExtensions ->
  toLowerCase spelled = ext ->
  path = spelled \/ path = stem +:+ "." +:+ spelled ->
  getMimeType (JString path) st = (Returns mime, st).
Proof.
  intros Hin Hspelled Hpath.
  assert (Hdot : noDot spelled = true).
  { rewrite <- noDot_toLowerCase, Hspelled. unfold knownExtensions in Hin.
    repeat (apply elem_of_cons in Hin as [[= -> ->]|Hin]; [reflexivity|]).
    by apply elem_of_nil in Hin. }
  unfold getMimeType.
  rewrite (extension_of_path path stem spelled Hdot Hpath), Hspelled.
  unfold knownExtensions in Hin.
  repeat (apply elem_of_cons in Hin as [[= -> ->]|Hin]; [reflexivity|]).
  by apply elem_of_nil in Hin.
Qed.

(** X16.  For every other extension (and for a path without a dot that
    is not itself one of the five names), [getMimeType] answers
    image/jpeg.  The two names every object literal inherits are left
    aside. *)
Theorem mime_type_defaults_to_jpeg (path stem spelled : string)
    (st : ServerState) :
  noDot spelled = true ->
  toLowerCase spelled ∉ (knownExtensions.*1 ++ inheritedKeys)%list ->
  path = spelled \/ path = stem +:+ "." +:+ spelled ->
  getMimeType (JString path) st = (Returns "image/jpeg", st).
Proof.
  intros Hdot Hother Hpath. unfold getMimeType.
  rewrite (extension_of_path path stem spelled Hdot Hpath).
  unfold mimeTypes.
  repeat match goal with
         | |- context [String.eqb ?a ?b] =>
             destruct (String.eqb_spec a b) as [Heq|_];
             [exfalso; apply Hother; rewrite Heq; cbn;
              rewrite !elem_of_cons; tauto|]
         end.
  reflexivity.
Qed.

(** *** Images *)

(** X17.  In [analyze_image] a path takes precedence over inline data:
    when [imagePath] is given, [imageBase64] is never looked at.  The file
    is read first; when the read fails, the failure is the outcome and no
    request goes to the backend.  Inline data, whatever its real format,
    is sent to the vision model labelled image/jpeg. *)
Theorem analyze_image_source (i args : JSValue) (st : ServerState) :
  let prompt :=
    withDefault (getProp args "prompt") (JString "Describe this image in detail") in
  (truthy (getProp args "imagePath") = true ->
   (forall args',
      getProp args' "imagePath" = getProp args "imagePath" ->
      getProp args' "prompt" = getProp args "prompt" ->
      analyzeImage env i args' st = analyzeImage env i args st)
   /\ (forall e,
         oracle env (effects st) (ERead (getProp args "imagePath")) = Throws e ->
         analyzeImage env i args st
           = (Throws e, logged st (ERead (getProp args "imagePath")))))
  /\ (truthy (getProp args "imagePath") = false ->
      truthy (getProp args "imageBase64") = true ->
      let call :=
        EGenerate VisionModel
          (visionRequest prompt [PInline (getProp args "imageBase64") "image/jpeg"]) in
      effects (snd (analyzeImage env i args st)) = (effects st ++ [call])%list
      /\ forall t,
           oracle env (effects st) call = Returns t ->
           fst (analyzeImage env i args st) = Returns (textResponse i t)).
Proof.
  intros prompt. split.
  - intros Hpath. split.
    + intros args' H1 H2. unfold analyzeImage. by rewrite H1, H2, Hpath.
    + intros e He. unfold analyzeImage. rewrite Hpath.
      unfold bind at 1. unfold perform. by rewrite He.
  - intros Hpath Hdata call. unfold analyzeImage. rewrite Hpath, Hdata.
    unfold describeImage, bind, perform, ret. fold prompt.
    change (EGenerate VisionModel _) with call.
    split.
    + by destruct (oracle env (effects st) call).
    + by intros t ->.
Qed.






(** *** Prompt templates *)










Lemma upperCaseOf_pure (format : JSValue) (st : ServerState) :
  snd (upperCaseOf format st) = st.
Proof. unfold upperCaseOf. by destruct format. Qed.




(** *** Ill-typed options *)



(** *** Sessions, again *)


(** X22.  A call that gives no [sessionId] works on the session "default":
    [chat], [summarize_conversation] and [clear_chat_history] behave on it
    exactly as on the same arguments with [sessionId] set to "default". *)
Theorem omitted_session_id_is_default (i args : JSValue) (st : ServerState) :
  getProp args "sessionId" = JUndefined ->
  let args' := spreadWith args "sessionId" (JString "default") in
  chat env i args st = chat env i args' st
  /\ summarizeConversation env i args st = summarizeConversation env i args' st
  /\ clearChatHistory i args st = clearChatHistory i args' st.
Proof.
  intros Hid args'.
  assert (Hsame : getProp args' "sessionId" = JString "default")
    by apply getProp_spreadWith_same.
  assert (Hmsg : getProp args' "message" = getProp args "message")
    by by apply getProp_spreadWith_other.
  assert (Hsys : getProp args' "systemPrompt" = getProp args "systemPrompt")
    by by apply getProp_spreadWith_other.
  unfold chat, summarizeConversation, clearChatHistory. cbv zeta.
  by rewrite Hsame, Hmsg, Hsys, Hid.
Qed.


(** *** Conversations *)




(** *** The catalog and the handlers *)

Ltac declared :=
  cbn [properties map propName prop]; rewrite !elem_of_cons; auto 10.

Ltac same_arguments Hargs :=
  cbv zeta;
  repeat match goal with
         | |- context [getProp ?a ?k] =>
             lazymatch type of Hargs with
             | forall name, _ -> getProp a name = _ =>
                 rewrite (Hargs k) by declared
             end
         end;
  reflexivity.

(** X25.  A handler reads no argument that the schema of its tool does not
    declare: two calls of a tool whose arguments agree on the declared
    properties have the same outcome, the same effects and the same final
    state.  A property the catalog does not list ([model], say) is
    ignored. *)
Theorem tools_read_only_declared_properties (d : ToolDescriptor) (h : Handler)
    (i args args' : JSValue) (st : ServerState) :
  d ∈ toolDescriptors ->
  (toolName d, h) ∈ toolCases env ->
  (forall name,
     name ∈ map propName (properties d) ->
     getProp args name = getProp args' name) ->
  h i args st = h i args' st.
Proof.
  intros Hd Hh Hargs. unfold toolDescriptors in Hd.
  repeat (apply elem_of_cons in Hd as [->|Hd]);
    [..|by apply elem_of_nil in Hd];
    cbn [toolName] in Hh; unfold toolCases in Hh;
    repeat (apply elem_of_cons in Hh as [Hcase|Hh];
            [first [discriminate Hcase | injection Hcase as ->]|]);
    try (by apply elem_of_nil in Hh).
  - unfold generateText. same_arguments Hargs.
  - unfold analyzeImage. same_arguments Hargs.
  - unfold extractTextFromImage. cbv zeta. symmetry. apply analyzeImage_ext.
    + rewrite !getProp_spreadWith_other by reflexivity.
      symmetry. apply Hargs. declared.
    + rewrite !getProp_spreadWith_other by reflexivity.
      symmetry. apply Hargs. declared.
    + by rewrite !getProp_spreadWith_same.
  - unfold compareImages. same_arguments Hargs.
  - unfold generateCode. same_arguments Hargs.
  - unfold explainCode. same_arguments Hargs.
  - unfold refactorCode. same_arguments Hargs.
  - unfold convertCode. same_arguments Hargs.
  - unfold chat. same_arguments Hargs.
  - unfold clearChatHistory. same_arguments Hargs.
  - unfold summarizeConversation. same_arguments Hargs.
  - unfold translateText. same_arguments Hargs.
  - unfold summarizeText. same_arguments Hargs.
  - unfold rewriteText. same_arguments Hargs.
  - unfold generateStructuredData. same_arguments Hargs.
  - unfold checkContentSafety. same_arguments Hargs.
  - unfold moderateText. same_arguments Hargs.
Qed.


End Dispatcher.

(** ** The dispatcher at concrete requests *)

Lemma only_tools_call_changes_state_witness :
  snd (onLine lineWorld (notificationLine "exit") afterChat) = afterChat.
Proof.
  apply (only_tools_call_changes_state lineWorld (notificationLine "exit")
           afterChat).
  intros request Hp.
  change (Some (notificationMessage "exit") = Some request) in Hp.
  injection Hp as <-. discriminate.
Defined.

Lemma sessions_changed_only_by_session_tools_witness :
  chatSessions (snd (handleRequest (failing "down") textCall afterChat))
  = chatSessions afterChat.
Proof.
  apply (sessions_changed_only_by_session_tools (failing "down") textCall
           afterChat).
  intros name _ Hn.
  change (JString "generate_text" = JString name) in Hn.
  injection Hn as <-. intros Hin. unfold sessionTools in Hin.
  repeat (apply elem_of_cons in Hin as [Hin|Hin]; [discriminate Hin|]).
  by apply elem_of_nil in Hin.
Defined.

Lemma session_tools_touch_only_their_key_witness :
  chatSessions (snd (handleRequest (answering "ok") chatOnS2 afterChat))
    !! KStr "s1"
  = chatSessions afterChat !! KStr "s1".
Proof.
  apply (session_tools_touch_only_their_key (answering "ok") chatOnS2
           afterChat (KStr "s1")).
  change (Some (KStr "s2") <> Some (KStr "s1")). discriminate.
Defined.

Lemma session_history_is_append_only_witness :
  exists extra,
    chatSessions (snd (handleRequest (answering "ok") chatOnS1 afterChat))
      !! KStr "s1"
    = Some ((initialHistory (JString "be brief")
             ++ [formatNewContent (JString "hi"); modelText "ok"])
            ++ extra)%list
    /\ turnPair extra.
Proof.
  destruct (session_history_is_append_only (answering "ok") chatOnS1 afterChat
              (KStr "s1")
              (initialHistory (JString "be brief")
               ++ [formatNewContent (JString "hi"); modelText "ok"])%list
              eq_refl)
    as [Hkept|(_ & _ & Hname & _)].
  - exact Hkept.
  - discriminate Hname.
Defined.


Lemma other_methods_not_found_witness :
  handleRequest (answering "ok") (request (JNum 5) "Tools/List" JUndefined)
    afterChat
  = (Returns (Some (errorResponse (JNum 5) MethodNotFound "Method not found")),
     afterChat).
Proof.
  apply (other_methods_not_found (answering "ok")
           (request (JNum 5) "Tools/List" JUndefined) "Tools/List" afterChat
           eq_refl eq_refl).
  intros Hin. unfold servedMethods in Hin.
  repeat (apply elem_of_cons in Hin as [Hin|Hin]; [discriminate Hin|]).
  by apply elem_of_nil in Hin.
Defined.

Lemma message_without_method_parse_error_witness :
  onLine bareWorld bareLine initialState
  = (Returns (Some (errorResponse (JNum 0) ParseError "Parse error")),
     initialState).
Proof.
  apply (message_without_method_parse_error bareWorld bareLine
           (JObject [("id", JNum 7)]) initialState eq_refl).
  intros method. discriminate.
Defined.

Lemma mime_type_of_known_extension_witness :
  getMimeType (JString "photos/Cat.PNG") initialState
  = (Returns "image/png", initialState).
Proof.
  apply (mime_type_of_known_extension "photos/Cat.PNG" "photos/Cat" "PNG"
           "png" "image/png" initialState).
  - unfold knownExtensions. rewrite !elem_of_cons. auto.
  - reflexivity.
  - right. reflexivity.
Defined.

Lemma mime_type_defaults_to_jpeg_witness :
  getMimeType (JString "scan.tiff") initialState
  = (Returns "image/jpeg", initialState).
Proof.
  apply (mime_type_defaults_to_jpeg "scan.tiff" "scan" "tiff" initialState).
  - reflexivity.
  - intros Hin.
    change ("tiff" ∈ ["jpg"; "jpeg"; "png"; "gif"; "webp";
                      "constructor"; "__proto__"]) in Hin.
    repeat (apply elem_of_cons in Hin as [Hin|Hin]; [discriminate Hin|]).
    by apply elem_of_nil in Hin.
  - right. reflexivity.
Defined.




Lemma omitted_session_id_is_default_witness :
  chat (answering "ok") (JNum 11) (JObject [("message", JString "hi")])
    initialState
  = chat (answering "ok") (JNum 11)
      (JObject [("message", JString "hi"); ("sessionId", JString "default")])
      initialState.
Proof.
  exact (proj1 (omitted_session_id_is_default (answering "ok") (JNum 11)
                  (JObject [("message", JString "hi")]) initialState eq_refl)).
Defined.



Lemma tools_read_only_declared_properties_witness :
  generateText (answering "ok") (JNum 1)
    (JObject [("prompt", JString "hi"); ("model", JString "gemini-pro")])
    initialState
  = generateText (answering "ok") (JNum 1) (JObject [("prompt", JString "hi")])
      initialState.
Proof.
  apply (tools_read_only_declared_properties (answering "ok")
           (mkTool "generate_text" "Generate text using Google Gemini"
              [prop "prompt" "string"; prop "temperature" "number";
               prop "maxTokens" "number"]
              ["prompt"] [])
           (generateText (answering "ok"))).
  - apply elem_of_cons. left. reflexivity.
  - apply elem_of_cons. left. reflexivity.
  - intros name Hin. cbn [properties map propName prop] in Hin.
    repeat (apply elem_of_cons in Hin as [->|Hin]; [reflexivity|]).
    by apply elem_of_nil in Hin.
Defined.

